(** * rl_baselines/train.py: the command-line driver of the RL baselines

    A shallow embedding of [rl_baselines/train.py] and the properties of its
    periodic training callback, of the log-folder configuration and of the
    entry point.

    The module is glue code over opaque collaborators (argparse, Visdom, the
    algorithm modules, the reward-log reader, the JSON filter).  The
    embedding keeps the module's global variables in a record, threads them
    through a small state-and-exception monad, and records every call made
    to a collaborator in a trace of events, in program order. *)

From Stdlib Require Import ZArith String Ascii List Bool Lia.
From Stdlib Require Import Floats.SpecFloat.
From stdpp Require Import base option gmap strings list fin_maps.

Local Open Scope string_scope.
Local Open Scope Z_scope.

(** ** Python values *)

(** The Python values that flow through the module.  [PyObj] is an opaque
    object of a collaborator (a model, a [act] function, a Visdom window
    handle); [PyVisdom] is the client object built by [Visdom(port=...)]. *)
Inductive pyval : Type :=
| PyNone
| PyBool (b : bool)
| PyInt (z : Z)
| PyFloat (f : spec_float)
| PyStr (s : string)
| PyVisdom (port : Z)
| PyObj (id : positive).

(** Python truthiness, as used by [if viz and ...].  Objects that define
    neither [__bool__] nor [__len__] are truthy. *)
Definition truthy (v : pyval) : bool :=
  match v with
  | PyNone => false
  | PyBool b => b
  | PyInt z => negb (z =? 0)
  | PyFloat f => negb (SFeqb f (S754_zero false))
  | PyStr s => negb (String.eqb s "")
  | PyVisdom _ => true
  | PyObj _ => true
  end.

(** [v is None] *)
Definition is_None (v : pyval) : bool :=
  match v with PyNone => true | _ => false end.

(** ** Rewards

    Mean rewards are IEEE-754 doubles; [best_mean_reward] starts as the
    integer [-10000], which is exactly representable, and Python compares
    an [int] with a [float] by value, so the integer is identified with the
    double [-10000.0]. *)
Definition reward := spec_float.

(** [-10000.0] in binary64: mantissa [10000 * 2^39] (53 bits), exponent [-39]. *)
Definition neg_10000 : reward := S754_finite true 5497558138880000 (-39).

(** Python's [a > b] and [a >= b] on doubles (both false on NaN). *)
Definition py_gt (a b : reward) : bool := SFltb b a.
Definition py_ge (a b : reward) : bool := SFleb b a.

(** ** Exceptions, events and the process state *)

Inductive exn : Type :=
| KeyError (key : string)
| AttributeError (attr : string)
| ValueError (msg : string)
| ZeroDivisionError
| UnboundLocalError (name : string).

(** The namespace returned by argparse: the flags declared in [main] and the
    flags added by the algorithm's [customArguments]. *)
Record Namespace : Type := mkNamespace {
  algo : string;
  env : string;
  seed : Z;
  log_dir : string;
  num_timesteps : Z;
  srl_model : string;
  num_stack : Z;
  action_repeat : Z;
  port : Z;
  no_vis : bool;
  extra : gmap string pyval
}.

Definition set_log_dir (d : string) (a : Namespace) : Namespace :=
  {| algo := algo a; env := env a; seed := seed a; log_dir := d;
     num_timesteps := num_timesteps a; srl_model := srl_model a;
     num_stack := num_stack a; action_repeat := action_repeat a;
     port := port a; no_vis := no_vis a; extra := extra a |}.

(** [vars(args)] *)
Definition vars (a : Namespace) : gmap string pyval :=
  <["algo" := PyStr (algo a)]>
  (<["env" := PyStr (env a)]>
  (<["seed" := PyInt (seed a)]>
  (<["log_dir" := PyStr (log_dir a)]>
  (<["num_timesteps" := PyInt (num_timesteps a)]>
  (<["srl_model" := PyStr (srl_model a)]>
  (<["num_stack" := PyInt (num_stack a)]>
  (<["action_repeat" := PyInt (action_repeat a)]>
  (<["port" := PyInt (port a)]>
  (<["no_vis" := PyBool (no_vis a)]> (extra a)))))))))).

(** The algorithm modules imported by the driver. *)
Inductive algo_module : Type :=
| deepq | acer | a2c | ppo2 | random_agent | random_search.

Definition algo_name (m : algo_module) : string :=
  match m with
  | deepq => "deepq"
  | acer => "acer"
  | a2c => "a2c"
  | ppo2 => "ppo2"
  | random_agent => "random_agent"
  | random_search => "random_search"
  end.

(** One event per call to a collaborator, with the arguments of the call. *)
Inductive event : Type :=
| EvVisdom (port : Z)
| EvJsonDump (path : string) (obj : gmap string pyval)
| EvComputeMeanReward (dir : string) (last_n : Z)
| EvPrintRewards (best mean : reward)
| EvSave (model : pyval) (path : string)
| EvVisdomPlot (v w : pyval) (folder game name : string)
               (bin_size smooth : option Z) (title : string)
| EvEpisodePlot (v w : pyval) (folder game name : string)
                (window : Z) (title : string)
| EvMakedirs (path : string)
| EvPrintGreen (s : string)
| EvPrintYellow (s : string)
| EvPprint (obj : gmap string pyval)
| EvCustomArguments (m : algo_module)
| EvSetGlobalSeeds (s : Z)
| EvAlgoMain (m : algo_module) (args : Namespace).

(** The module-level variables of [train.py]. *)
Record globals : Type := mkGlobals {
  VISDOM_PORT : Z;
  LOG_INTERVAL : Z;
  LOG_DIR : string;
  ALGO : string;
  ENV_NAME : string;
  PLOT_TITLE : string;
  EPISODE_WINDOW : Z;
  viz : pyval;
  n_steps : Z;
  SAVE_INTERVAL : Z;
  N_EPISODES_EVAL : Z;
  params_saved : bool;
  best_mean_reward : reward;
  win : pyval;
  win_smooth : pyval;
  win_episodes : pyval
}.

(** The values the module gives its globals when it is imported. *)
Definition initial_globals : globals :=
  {| VISDOM_PORT := 8097; LOG_INTERVAL := 100; LOG_DIR := ""; ALGO := "";
     ENV_NAME := ""; PLOT_TITLE := "Raw Pixels"; EPISODE_WINDOW := 40;
     viz := PyNone; n_steps := 0; SAVE_INTERVAL := 500;
     N_EPISODES_EVAL := 50; params_saved := false;
     best_mean_reward := neg_10000;
     win := PyNone; win_smooth := PyNone; win_episodes := PyNone |}.

(** Assignments to the globals ([global X; X = v]). *)
Definition set_VISDOM_PORT (v : Z) (g : globals) : globals :=
  {| VISDOM_PORT := v; LOG_INTERVAL := LOG_INTERVAL g; LOG_DIR := LOG_DIR g;
     ALGO := ALGO g; ENV_NAME := ENV_NAME g; PLOT_TITLE := PLOT_TITLE g;
     EPISODE_WINDOW := EPISODE_WINDOW g; viz := viz g; n_steps := n_steps g;
     SAVE_INTERVAL := SAVE_INTERVAL g; N_EPISODES_EVAL := N_EPISODES_EVAL g;
     params_saved := params_saved g; best_mean_reward := best_mean_reward g;
     win := win g; win_smooth := win_smooth g;
     win_episodes := win_episodes g |}.

Definition set_LOG_INTERVAL (v : Z) (g : globals) : globals :=
  {| VISDOM_PORT := VISDOM_PORT g; LOG_INTERVAL := v; LOG_DIR := LOG_DIR g;
     ALGO := ALGO g; ENV_NAME := ENV_NAME g; PLOT_TITLE := PLOT_TITLE g;
     EPISODE_WINDOW := EPISODE_WINDOW g; viz := viz g; n_steps := n_steps g;
     SAVE_INTERVAL := SAVE_INTERVAL g; N_EPISODES_EVAL := N_EPISODES_EVAL g;
     params_saved := params_saved g; best_mean_reward := best_mean_reward g;
     win := win g; win_smooth := win_smooth g;
     win_episodes := win_episodes g |}.

Definition set_LOG_DIR (v : string) (g : globals) : globals :=
  {| VISDOM_PORT := VISDOM_PORT g; LOG_INTERVAL := LOG_INTERVAL g;
     LOG_DIR := v; ALGO := ALGO g; ENV_NAME := ENV_NAME g;
     PLOT_TITLE := PLOT_TITLE g; EPISODE_WINDOW := EPISODE_WINDOW g;
     viz := viz g; n_steps := n_steps g; SAVE_INTERVAL := SAVE_INTERVAL g;
     N_EPISODES_EVAL := N_EPISODES_EVAL g; params_saved := params_saved g;
     best_mean_reward := best_mean_reward g; win := win g;
     win_smooth := win_smooth g; win_episodes := win_episodes g |}.

Definition set_ALGO (v : string) (g : globals) : globals :=
  {| VISDOM_PORT := VISDOM_PORT g; LOG_INTERVAL := LOG_INTERVAL g;
     LOG_DIR := LOG_DIR g; ALGO := v; ENV_NAME := ENV_NAME g;
     PLOT_TITLE := PLOT_TITLE g; EPISODE_WINDOW := EPISODE_WINDOW g;
     viz := viz g; n_steps := n_steps g; SAVE_INTERVAL := SAVE_INTERVAL g;
     N_EPISODES_EVAL := N_EPISODES_EVAL g; params_saved := params_saved g;
     best_mean_reward := best_mean_reward g; win := win g;
     win_smooth := win_smooth g; win_episodes := win_episodes g |}.

Definition set_ENV_NAME (v : string) (g : globals) : globals :=
  {| VISDOM_PORT := VISDOM_PORT g; LOG_INTERVAL := LOG_INTERVAL g;
     LOG_DIR := LOG_DIR g; ALGO := ALGO g; ENV_NAME := v;
     PLOT_TITLE := PLOT_TITLE g; EPISODE_WINDOW := EPISODE_WINDOW g;
     viz := viz g; n_steps := n_steps g; SAVE_INTERVAL := SAVE_INTERVAL g;
     N_EPISODES_EVAL := N_EPISODES_EVAL g; params_saved := params_saved g;
     best_mean_reward := best_mean_reward g; win := win g;
     win_smooth := win_smooth g; win_episodes := win_episodes g |}.

Definition set_PLOT_TITLE (v : string) (g : globals) : globals :=
  {| VISDOM_PORT := VISDOM_PORT g; LOG_INTERVAL := LOG_INTERVAL g;
     LOG_DIR := LOG_DIR g; ALGO := ALGO g; ENV_NAME := ENV_NAME g;
     PLOT_TITLE := v; EPISODE_WINDOW := EPISODE_WINDOW g; viz := viz g;
     n_steps := n_steps g; SAVE_INTERVAL := SAVE_INTERVAL g;
     N_EPISODES_EVAL := N_EPISODES_EVAL g; params_saved := params_saved g;
     best_mean_reward := best_mean_reward g; win := win g;
     win_smooth := win_smooth g; win_episodes := win_episodes g |}.

Definition set_viz (v : pyval) (g : globals) : globals :=
  {| VISDOM_PORT := VISDOM_PORT g; LOG_INTERVAL := LOG_INTERVAL g;
     LOG_DIR := LOG_DIR g; ALGO := ALGO g; ENV_NAME := ENV_NAME g;
     PLOT_TITLE := PLOT_TITLE g; EPISODE_WINDOW := EPISODE_WINDOW g;
     viz := v; n_steps := n_steps g; SAVE_INTERVAL := SAVE_INTERVAL g;
     N_EPISODES_EVAL := N_EPISODES_EVAL g; params_saved := params_saved g;
     best_mean_reward := best_mean_reward g; win := win g;
     win_smooth := win_smooth g; win_episodes := win_episodes g |}.

Definition set_n_steps (v : Z) (g : globals) : globals :=
  {| VISDOM_PORT := VISDOM_PORT g; LOG_INTERVAL := LOG_INTERVAL g;
     LOG_DIR := LOG_DIR g; ALGO := ALGO g; ENV_NAME := ENV_NAME g;
     PLOT_TITLE := PLOT_TITLE g; EPISODE_WINDOW := EPISODE_WINDOW g;
     viz := viz g; n_steps := v; SAVE_INTERVAL := SAVE_INTERVAL g;
     N_EPISODES_EVAL := N_EPISODES_EVAL g; params_saved := params_saved g;
     best_mean_reward := best_mean_reward g; win := win g;
     win_smooth := win_smooth g; win_episodes := win_episodes g |}.

Definition set_SAVE_INTERVAL (v : Z) (g : globals) : globals :=
  {| VISDOM_PORT := VISDOM_PORT g; LOG_INTERVAL := LOG_INTERVAL g;
     LOG_DIR := LOG_DIR g; ALGO := ALGO g; ENV_NAME := ENV_NAME g;
     PLOT_TITLE := PLOT_TITLE g; EPISODE_WINDOW := EPISODE_WINDOW g;
     viz := viz g; n_steps := n_steps g; SAVE_INTERVAL := v;
     N_EPISODES_EVAL := N_EPISODES_EVAL g; params_saved := params_saved g;
     best_mean_reward := best_mean_reward g; win := win g;
     win_smooth := win_smooth g; win_episodes := win_episodes g |}.

Definition set_params_saved (v : bool) (g : globals) : globals :=
  {| VISDOM_PORT := VISDOM_PORT g; LOG_INTERVAL := LOG_INTERVAL g;
     LOG_DIR := LOG_DIR g; ALGO := ALGO g; ENV_NAME := ENV_NAME g;
     PLOT_TITLE := PLOT_TITLE g; EPISODE_WINDOW := EPISODE_WINDOW g;
     viz := viz g; n_steps := n_steps g; SAVE_INTERVAL := SAVE_INTERVAL g;
     N_EPISODES_EVAL := N_EPISODES_EVAL g; params_saved := v;
     best_mean_reward := best_mean_reward g; win := win g;
     win_smooth := win_smooth g; win_episodes := win_episodes g |}.

Definition set_best_mean_reward (v : reward) (g : globals) : globals :=
  {| VISDOM_PORT := VISDOM_PORT g; LOG_INTERVAL := LOG_INTERVAL g;
     LOG_DIR := LOG_DIR g; ALGO := ALGO g; ENV_NAME := ENV_NAME g;
     PLOT_TITLE := PLOT_TITLE g; EPISODE_WINDOW := EPISODE_WINDOW g;
     viz := viz g; n_steps := n_steps g; SAVE_INTERVAL := SAVE_INTERVAL g;
     N_EPISODES_EVAL := N_EPISODES_EVAL g; params_saved := params_saved g;
     best_mean_reward := v; win := win g; win_smooth := win_smooth g;
     win_episodes := win_episodes g |}.

Definition set_win (v : pyval) (g : globals) : globals :=
  {| VISDOM_PORT := VISDOM_PORT g; LOG_INTERVAL := LOG_INTERVAL g;
     LOG_DIR := LOG_DIR g; ALGO := ALGO g; ENV_NAME := ENV_NAME g;
     PLOT_TITLE := PLOT_TITLE g; EPISODE_WINDOW := EPISODE_WINDOW g;
     viz := viz g; n_steps := n_steps g; SAVE_INTERVAL := SAVE_INTERVAL g;
     N_EPISODES_EVAL := N_EPISODES_EVAL g; params_saved := params_saved g;
     best_mean_reward := best_mean_reward g; win := v;
     win_smooth := win_smooth g; win_episodes := win_episodes g |}.

Definition set_win_smooth (v : pyval) (g : globals) : globals :=
  {| VISDOM_PORT := VISDOM_PORT g; LOG_INTERVAL := LOG_INTERVAL g;
     LOG_DIR := LOG_DIR g; ALGO := ALGO g; ENV_NAME := ENV_NAME g;
     PLOT_TITLE := PLOT_TITLE g; EPISODE_WINDOW := EPISODE_WINDOW g;
     viz := viz g; n_steps := n_steps g; SAVE_INTERVAL := SAVE_INTERVAL g;
     N_EPISODES_EVAL := N_EPISODES_EVAL g; params_saved := params_saved g;
     best_mean_reward := best_mean_reward g; win := win g; win_smooth := v;
     win_episodes := win_episodes g |}.

Definition set_win_episodes (v : pyval) (g : globals) : globals :=
  {| VISDOM_PORT := VISDOM_PORT g; LOG_INTERVAL := LOG_INTERVAL g;
     LOG_DIR := LOG_DIR g; ALGO := ALGO g; ENV_NAME := ENV_NAME g;
     PLOT_TITLE := PLOT_TITLE g; EPISODE_WINDOW := EPISODE_WINDOW g;
     viz := viz g; n_steps := n_steps g; SAVE_INTERVAL := SAVE_INTERVAL g;
     N_EPISODES_EVAL := N_EPISODES_EVAL g; params_saved := params_saved g;
     best_mean_reward := best_mean_reward g; win := win g;
     win_smooth := win_smooth g; win_episodes := v |}.

(** The state of the process: the globals of [train.py], the attributes of
    the [kuka_env] module of the selected algorithm, and the calls made so
    far (oldest first). *)
Record state : Type := mkState {
  st_globals : globals;
  st_kuka_env : gmap string pyval;
  st_trace : list event
}.

(** ** The monad: state plus exceptions

    A computation maps the state to an outcome and the state it leaves
    behind; a raised exception keeps the state reached so far, as Python
    does with global variables. *)
Inductive outcome (A : Type) : Type :=
| Returns (a : A)
| Raises (e : exn).
Arguments Returns {A} a.
Arguments Raises {A} e.

Definition M (A : Type) : Type := state -> outcome A * state.

Definition ret {A} (a : A) : M A := fun s => (Returns a, s).

Definition bind {A B} (m : M A) (k : A -> M B) : M B :=
  fun s => match m s with
           | (Returns a, s') => k a s'
           | (Raises e, s') => (Raises e, s')
           end.

Definition raise {A} (e : exn) : M A := fun s => (Raises e, s).

Declare Scope py_scope.
Delimit Scope py_scope with py.
Notation "'do' x <- m ; k" := (bind m (fun x => k))
  (at level 10, x name, m at level 100, k at level 200) : py_scope.
Notation "m ;; k" := (bind m (fun _ => k))
  (at level 100, k at level 200, right associativity) : py_scope.
Local Open Scope py_scope.

Definition get_globals : M globals := fun s => (Returns (st_globals s), s).

Definition modify_globals (f : globals -> globals) : M unit :=
  fun s => (Returns tt,
            {| st_globals := f (st_globals s); st_kuka_env := st_kuka_env s;
               st_trace := st_trace s |}).

Definition get_kuka_env : M (gmap string pyval) :=
  fun s => (Returns (st_kuka_env s), s).

(** [module.attr = v] on the [kuka_env] module. *)
Definition setattr_kuka_env (attr : string) (v : pyval) : M unit :=
  fun s => (Returns tt,
            {| st_globals := st_globals s;
               st_kuka_env := <[attr := v]> (st_kuka_env s);
               st_trace := st_trace s |}).

(** A call to a collaborator. *)
Definition emit (e : event) : M unit :=
  fun s => (Returns tt,
            {| st_globals := st_globals s; st_kuka_env := st_kuka_env s;
               st_trace := st_trace s ++ [e] |}).

Definition when (b : bool) (m : M unit) : M unit :=
  if b then m else ret tt.

(** [d[key]] on a dictionary: [KeyError] when the key is absent. *)
Definition getitem {V} (d : gmap string V) (key : string) : M V :=
  match d !! key with
  | Some v => ret v
  | None => raise (KeyError key)
  end.

(** [a % b] on Python integers: floor modulo, [ZeroDivisionError] on [0]. *)
Definition py_mod (a b : Z) : M Z :=
  if b =? 0 then raise ZeroDivisionError else ret (a mod b).

(** ** The collaborators *)

(** What the stateful collaborators answer during one call of [callback]:
    the reward-log reader and the two plotting functions of
    [pytorch_agents.visualize], each as a function of the arguments it is
    called with, and, for the objects of the collaborators, whether an
    object has a [save] attribute.  The answers may differ from one call of
    [callback] to the next, since the log files grow during training. *)
Record world : Type := mkWorld {
  computeMeanReward : string -> Z -> bool * reward;
  visdom_plot : pyval -> pyval -> string -> string -> string ->
                option Z -> option Z -> string -> pyval;
  episode_plot : pyval -> pyval -> string -> string -> string ->
                 Z -> string -> pyval;
  has_save : pyval -> bool
}.

(** [hasattr(v, "save")]: [None], booleans, numbers and strings have no
    such attribute; for an object of a collaborator the world tells. *)
Definition has_save_method (w : world) (v : pyval) : bool :=
  match v with
  | PyNone | PyBool _ | PyInt _ | PyFloat _ | PyStr _ => false
  | PyVisdom _ | PyObj _ => has_save w v
  end.

(** [v.save(path)]: [AttributeError] when [v] has no [save]; otherwise the
    call to the object. *)
Definition call_save (w : world) (v : pyval) (path : string) : M unit :=
  if has_save_method w v then emit (EvSave v path)
  else raise (AttributeError "save").

(** What [main] reads from its surroundings: the two parses of the command
    line (before and after the algorithm added its flags) and the formatted
    date of [datetime.now()]. *)
Record cmdline : Type := mkCmdline {
  parse_known_args : Namespace;
  parse_args : Namespace;
  now : string
}.

Definition newline : string := String "010"%char EmptyString.

(** The pure helpers and tables the module imports:
    [rl_baselines.utils.filterJSONSerializableObjects], the dictionary
    returned by [kuka_env.getGlobals()] as a function of the module's
    attributes, and the table [models] loaded from
    [config/srl_models.yaml] when the module is imported. *)
Class helpers : Type := mkHelpers {
  filterJSONSerializableObjects : gmap string pyval -> gmap string pyval;
  getGlobals : gmap string pyval -> gmap string pyval;
  models : gmap string string
}.

Section Train.

Context `{Hext : helpers}.

(** [with open(path, "w") as f: json.dump(obj, f)] *)
Definition json_dump_to (path : string) (obj : gmap string pyval) : M unit :=
  emit (EvJsonDump path obj).

Definition saveEnvParams : M unit :=
  do kuka_env <- get_kuka_env;
  let params := filterJSONSerializableObjects (getGlobals kuka_env) in
  do g <- get_globals;
  json_dump_to (LOG_DIR g +:+ "kuka_env_globals.json") params.

Definition configureEnvAndLogFolder (args : Namespace) (stamp : string)
  : M Namespace :=
  do args <-
    (if negb (String.eqb (srl_model args) "") then
       modify_globals (set_PLOT_TITLE (srl_model args));;
       let path := models !! srl_model args in
       let args := set_log_dir (log_dir args +:+ srl_model args +:+ "/") args in
       (if String.eqb (srl_model args) "ground_truth" then
          setattr_kuka_env "USE_GROUND_TRUTH" (PyBool true);;
          modify_globals (set_PLOT_TITLE "Ground Truth")
        else
          match path with
          | Some path =>
              setattr_kuka_env "USE_SRL" (PyBool true);;
              do folder <- getitem models "log_folder";
              setattr_kuka_env "SRL_MODEL_PATH" (PyStr (folder +:+ path))
          | None =>
              raise (ValueError ("Unsupported value for srl-model: "
                                 +:+ srl_model args))
          end);;
       ret args
     else
       ret (set_log_dir (log_dir args +:+ "raw_pixels/") args));
  (* Add date + current time *)
  do g <- get_globals;
  let args := set_log_dir (log_dir args +:+ ALGO g +:+ "/" +:+ stamp +:+ "/")
                          args in
  modify_globals (set_LOG_DIR (log_dir args));;
  emit (EvMakedirs (log_dir args));;
  ret args.

(** The checkpoint of the model in scope: one branch per algorithm that has
    a model, none for the others.  Each branch looks the model up in
    [_locals] and calls its [save]. *)
Definition save_best_model (w : world) (_locals : gmap string pyval)
  : M unit :=
  do g <- get_globals;
  if String.eqb (ALGO g) "deepq" then
    do act <- getitem _locals "act";
    call_save w act (LOG_DIR g +:+ "deepq_model.pkl")
  else if String.eqb (ALGO g) "acer" then
    do model <- getitem _locals "model";
    call_save w model (LOG_DIR g +:+ "acer_model.pkl")
  else if String.eqb (ALGO g) "a2c" then
    do model <- getitem _locals "model";
    call_save w model (LOG_DIR g +:+ "a2c_model.pkl")
  else if String.eqb (ALGO g) "ppo2" then
    do model <- getitem _locals "model";
    call_save w model (LOG_DIR g +:+ "ppo2_model.pkl")
  else ret tt.

(** [if viz is None: viz = Visdom(port=VISDOM_PORT)] *)
Definition connect_visdom : M unit :=
  do g <- get_globals;
  when (is_None (viz g))
    (emit (EvVisdom (VISDOM_PORT g));;
     modify_globals (set_viz (PyVisdom (VISDOM_PORT g)))).

(** [if not params_saved: ...] *)
Definition save_params (_locals : gmap string pyval) : M unit :=
  do g <- get_globals;
  when (negb (params_saved g))
    ((* Filter locals *)
     let params := filterJSONSerializableObjects _locals in
     json_dump_to (LOG_DIR g +:+ "rl_locals.json") params;;
     modify_globals (set_params_saved true)).

(** Save the RL model if it has improved:
    [if (n_steps + 1) % SAVE_INTERVAL == 0: ...] *)
Definition save_if_improved (w : world) (_locals : gmap string pyval)
  : M unit :=
  do g <- get_globals;
  do r <- py_mod (n_steps g + 1) (SAVE_INTERVAL g);
  when (r =? 0)
    ((* Evaluate network performance *)
     emit (EvComputeMeanReward (LOG_DIR g) (N_EPISODES_EVAL g));;
     let '(ok, mean_reward) :=
       computeMeanReward w (LOG_DIR g) (N_EPISODES_EVAL g) in
     do mean_reward <-
       (if ok then
          emit (EvPrintRewards (best_mean_reward g) mean_reward);;
          ret mean_reward
        else
          (* Not enough episode *)
          ret neg_10000);
     (* Save Best model *)
     when (py_gt mean_reward (best_mean_reward g))
       (modify_globals (set_best_mean_reward mean_reward);;
        save_best_model w _locals)).

(** [if viz and (n_steps + 1) % LOG_INTERVAL == 0: ...]; the modulo is
    evaluated only when [viz] is truthy. *)
Definition refresh_plots (w : world) : M unit :=
  do g <- get_globals;
  do plot <-
    (if truthy (viz g) then
       do r <- py_mod (n_steps g + 1) (LOG_INTERVAL g); ret (r =? 0)
     else ret false);
  when plot
    (emit (EvVisdomPlot (viz g) (win g) (LOG_DIR g) (ENV_NAME g) (ALGO g)
                        (Some 1) (Some 0) (PLOT_TITLE g));;
     modify_globals
       (set_win (visdom_plot w (viz g) (win g) (LOG_DIR g) (ENV_NAME g)
                             (ALGO g) (Some 1) (Some 0) (PLOT_TITLE g)));;
     emit (EvVisdomPlot (viz g) (win_smooth g) (LOG_DIR g) (ENV_NAME g)
                        (ALGO g) None None (PLOT_TITLE g +:+ " smoothed"));;
     modify_globals
       (set_win_smooth
          (visdom_plot w (viz g) (win_smooth g) (LOG_DIR g) (ENV_NAME g)
                       (ALGO g) None None (PLOT_TITLE g +:+ " smoothed")));;
     emit (EvEpisodePlot (viz g) (win_episodes g) (LOG_DIR g) (ENV_NAME g)
                         (ALGO g) (EPISODE_WINDOW g)
                         (PLOT_TITLE g +:+ " [Episodes]"));;
     modify_globals
       (set_win_episodes
          (episode_plot w (viz g) (win_episodes g) (LOG_DIR g) (ENV_NAME g)
                        (ALGO g) (EPISODE_WINDOW g)
                        (PLOT_TITLE g +:+ " [Episodes]")))).

(** The callback, in the order of its statements; [_globals] is unused. *)
Definition callback (w : world) (_locals _globals : gmap string pyval)
  : M bool :=
  connect_visdom;;
  save_params _locals;;
  save_if_improved w _locals;;
  refresh_plots w;;
  do g <- get_globals;
  modify_globals (set_n_steps (n_steps g + 1));;
  ret false.

(** The entry point.  [parser.parse_known_args()] and, after
    [algo.customArguments(parser)], [parser.parse_args()] are the two parses
    of [c]; the local variable [algo] is unbound when no branch assigns it. *)
Definition main (c : cmdline) : M unit :=
  let args := parse_known_args c in
  modify_globals (set_ENV_NAME (env args));;
  modify_globals (set_ALGO (algo args));;
  modify_globals (set_VISDOM_PORT (port args));;
  when (no_vis args) (modify_globals (set_viz (PyBool false)));;
  do algo_mod <-
    (if String.eqb (algo args) "deepq" then ret (Some deepq)
     else if String.eqb (algo args) "acer" then
       modify_globals (set_LOG_INTERVAL 1);;
       modify_globals (set_SAVE_INTERVAL 20);;
       ret (Some acer)
     else if String.eqb (algo args) "a2c" then ret (Some a2c)
     else if String.eqb (algo args) "ppo2" then
       modify_globals (set_LOG_INTERVAL 10);;
       ret (Some ppo2)
     else if String.eqb (algo args) "random_agent" then ret (Some random_agent)
     else if String.eqb (algo args) "random_search" then
       ret (Some random_search)
     else ret None);
  emit (EvPrintGreen (newline +:+ "Agent = " +:+ algo args +:+ " " +:+ newline));;
  do algo_mod <-
    match algo_mod with
    | Some m => ret m
    | None => raise (UnboundLocalError "algo")
    end;
  setattr_kuka_env "ACTION_REPEAT" (PyInt (action_repeat args));;
  emit (EvCustomArguments algo_mod);;
  let args := parse_args c in
  do args <- configureEnvAndLogFolder args (now c);
  let args_dict := filterJSONSerializableObjects (vars args) in
  (* Save args *)
  do g <- get_globals;
  json_dump_to (LOG_DIR g +:+ "args.json") args_dict;;
  (* Print Variables *)
  emit (EvPrintYellow "Arguments:");;
  emit (EvPprint args_dict);;
  emit (EvPrintYellow "Kuka Env Globals:");;
  do kuka_env <- get_kuka_env;
  emit (EvPprint (filterJSONSerializableObjects (getGlobals kuka_env)));;
  (* Save kuka env params *)
  saveEnvParams;;
  emit (EvSetGlobalSeeds (seed args));;
  emit (EvAlgoMain algo_mod args).

(** ** Runs of the process *)

(** One call of [callback] by the training loop: what the collaborators
    answer during the call, and the two dictionaries it is called with. *)
Record invocation : Type := mkInvocation {
  inv_world : world;
  inv_locals : gmap string pyval;
  inv_globals : gmap string pyval
}.

(** The state a call of [callback] leaves behind (also when it raises). *)
Definition invoke (i : invocation) (s : state) : state :=
  snd (callback (inv_world i) (inv_locals i) (inv_globals i) s).

Fixpoint run_callbacks (invs : list invocation) (s : state) : state :=
  match invs with
  | [] => s
  | i :: rest => run_callbacks rest (invoke i s)
  end.

(** The states a process can be in: the module has been imported, and
    [main] and [callback] have been called any number of times. *)
Inductive reachable : state -> Prop :=
| reach_import (kuka_env : gmap string pyval) :
    reachable (mkState initial_globals kuka_env [])
| reach_main (c : cmdline) (s : state) :
    reachable s -> reachable (snd (main c s))
| reach_callback (w : world) (l gl : gmap string pyval) (s : state) :
    reachable s -> reachable (snd (callback w l gl s)).

End Train.

(** ** Observations on a call *)

(** The calls made between two states of a run. *)
Definition new_events (s s' : state) : list event :=
  drop (length (st_trace s)) (st_trace s').

(** The trace of [s'] continues the trace of [s]. *)
Definition extends (s s' : state) : Prop :=
  st_trace s' = (st_trace s ++ new_events s s')%list.

Definition is_reward_read (e : event) : bool :=
  match e with EvComputeMeanReward _ _ => true | _ => false end.

Definition is_save (e : event) : bool :=
  match e with EvSave _ _ => true | _ => false end.

Definition is_plot (e : event) : bool :=
  match e with
  | EvVisdomPlot _ _ _ _ _ _ _ _ | EvEpisodePlot _ _ _ _ _ _ _ => true
  | _ => false
  end.

Definition is_visdom (e : event) : bool :=
  match e with EvVisdom _ => true | _ => false end.

Definition is_algo_main (e : event) : bool :=
  match e with EvAlgoMain _ _ => true | _ => false end.

(** The event writes the file [p]. *)
Definition writes_file (p : string) (e : event) : bool :=
  match e with
  | EvJsonDump q _ | EvSave _ q => String.eqb p q
  | _ => false
  end.

(** [(n_steps + 1) % SAVE_INTERVAL == 0] and
    [(n_steps + 1) % LOG_INTERVAL == 0] *)
Definition save_step (g : globals) : bool :=
  (n_steps g + 1) mod SAVE_INTERVAL g =? 0.

Definition log_step (g : globals) : bool :=
  (n_steps g + 1) mod LOG_INTERVAL g =? 0.

(** The mean reward the callback compares at a save step: the one read
    from the log, or [-10000] when there are not enough episodes. *)
Definition last_mean_reward (w : world) (g : globals) : reward :=
  let '(ok, m) := computeMeanReward w (LOG_DIR g) (N_EPISODES_EVAL g) in
  if ok then m else neg_10000.

Definition improved (w : world) (g : globals) : bool :=
  py_gt (last_mean_reward w g) (best_mean_reward g).

(** The key of [_locals] under which an algorithm keeps its model, for the
    algorithms that have one. *)
Definition model_key (a : string) : option string :=
  if String.eqb a "deepq" then Some "act"
  else if String.eqb a "acer" then Some "model"
  else if String.eqb a "a2c" then Some "model"
  else if String.eqb a "ppo2" then Some "model"
  else None.

(** The exception the checkpoint of a call raises, if any: [KeyError] when
    [_locals] lacks the key of the algorithm, [AttributeError] when the
    value under the key has no [save]. *)
Definition checkpoint_error (w : world) (l : gmap string pyval) (g : globals)
  : option exn :=
  if save_step g && improved w g then
    match model_key (ALGO g) with
    | Some k => match l !! k with
                | Some v => if has_save_method w v then None
                            else Some (AttributeError "save")
                | None => Some (KeyError k)
                end
    | None => None
    end
  else None.

(** The [.save()] calls of a checkpoint. *)
Definition checkpoint_saves (w : world) (l : gmap string pyval) (g : globals)
  : list event :=
  match model_key (ALGO g) with
  | Some k => match l !! k with
              | Some v => if has_save_method w v
                          then [EvSave v (LOG_DIR g +:+ ALGO g +:+ "_model.pkl")]
                          else []
              | None => []
              end
  | None => []
  end.

(** Visualization is on: [viz] is not falsy once [callback] has replaced
    [None] by a Visdom client. *)
Definition viz_enabled (g : globals) : bool :=
  is_None (viz g) || truthy (viz g).

(** [viz] as the plotting functions see it. *)
Definition viz_client (g : globals) : pyval :=
  if is_None (viz g) then PyVisdom (VISDOM_PORT g) else viz g.

(** The three plot refreshes of a call, with their arguments. *)
Definition plot_refreshes (g : globals) : list event :=
  [EvVisdomPlot (viz_client g) (win g) (LOG_DIR g) (ENV_NAME g) (ALGO g)
                (Some 1) (Some 0) (PLOT_TITLE g);
   EvVisdomPlot (viz_client g) (win_smooth g) (LOG_DIR g) (ENV_NAME g)
                (ALGO g) None None (PLOT_TITLE g +:+ " smoothed");
   EvEpisodePlot (viz_client g) (win_episodes g) (LOG_DIR g) (ENV_NAME g)
                 (ALGO g) (EPISODE_WINDOW g) (PLOT_TITLE g +:+ " [Episodes]")].

(** The choices argparse accepts for [--algo]. *)
Definition algo_choices : list string :=
  ["acer"; "deepq"; "a2c"; "ppo2"; "random_search"; "random_agent"].

(** The sub-folder of the SRL model, and the log folder derived from the
    arguments, the algorithm name and the date. *)
Definition srl_folder (args : Namespace) : string :=
  if String.eqb (srl_model args) "" then "raw_pixels/"
  else srl_model args +:+ "/".

Definition derived_log_dir (args : Namespace) (algo_str stamp : string)
  : string :=
  (log_dir args +:+ srl_folder args) +:+ algo_str +:+ "/" +:+ stamp +:+ "/".

(** The SRL model is one [configureEnvAndLogFolder] supports: none, the
    ground truth, or a model of the table (which then gives its folder). *)
Definition srl_supported `{Hext : helpers} (args : Namespace) : bool :=
  if String.eqb (srl_model args) "" then true
  else if String.eqb (srl_model args) "ground_truth" then true
  else match models !! srl_model args with
       | Some _ => match models !! "log_folder" with
                   | Some _ => true
                   | None => false
                   end
       | None => false
       end.

(** The event creates a Visdom connection or refreshes a plot. *)
Definition is_visualization (e : event) : bool :=
  is_visdom e || is_plot e.

(** ** Example inputs

    Concrete collaborators, command lines and calls, used to run the
    definitions above. *)

Definition is_json_safe (v : pyval) : bool :=
  match v with PyVisdom _ | PyObj _ => false | _ => true end.

(** A filter that keeps the entries whose value JSON can represent. *)
Definition keep_json_safe (d : gmap string pyval) : gmap string pyval :=
  filter (fun kv => is_json_safe (snd kv) = true) d.

(** A table with two SRL models; [supervised] has no entry. *)
Definition example_models : gmap string string :=
  <["log_folder" := "srl_priors/logs/"]>
  (<["autoencoder" := "autoencoder/srl_ae_model.pth"]>
  (<["srl_priors" := "priors/srl_model.pth"]> ∅)).

Definition example_helpers : helpers :=
  {| filterJSONSerializableObjects := keep_json_safe;
     getGlobals := fun attrs => attrs;
     models := example_models |}.

(** The objects [1] and [2] are a model and an [act] function, which have a
    [save] method; the other objects (window handles) have none. *)
Definition is_model_object (v : pyval) : bool :=
  match v with
  | PyObj 1 | PyObj 2 => true
  | _ => false
  end.

(** [1.0] and [0.0] in binary64. *)
Definition reward_one : reward := S754_finite false 4503599627370496 (-52).
Definition reward_zero : reward := S754_zero false.

(** The log holds enough episodes, of mean reward [1.0]. *)
Definition world_improving : world :=
  {| computeMeanReward := fun _ _ => (true, reward_one);
     visdom_plot := fun _ _ _ _ _ _ _ _ => PyObj 11;
     episode_plot := fun _ _ _ _ _ _ _ => PyObj 12;
     has_save := is_model_object |}.

(** The log holds no episode yet: [computeMeanReward] is not ok. *)
Definition world_no_episode : world :=
  {| computeMeanReward := fun _ _ => (false, reward_zero);
     visdom_plot := fun _ _ _ _ _ _ _ _ => PyObj 11;
     episode_plot := fun _ _ _ _ _ _ _ => PyObj 12;
     has_save := is_model_object |}.

(** Locals of a training loop that holds a model and an [act] function. *)
Definition locals_with_model : gmap string pyval :=
  <["model" := PyObj 1]> (<["act" := PyObj 2]> (<["nsteps" := PyInt 20]> ∅)).

(** Locals of a loop that holds neither. *)
Definition locals_without_model : gmap string pyval :=
  <["nsteps" := PyInt 20]> ∅.

(** Locals whose ['model'] is a number, which has no [save]. *)
Definition locals_without_save : gmap string pyval :=
  <["model" := PyInt 7]> (<["nsteps" := PyInt 20]> ∅).

Definition example_args (algo_str srl : string) (quiet : bool) : Namespace :=
  {| algo := algo_str; env := "KukaButtonGymEnv-v0"; seed := 0;
     log_dir := "/tmp/gym/"; num_timesteps := 1000000; srl_model := srl;
     num_stack := 4; action_repeat := 1; port := 8097; no_vis := quiet;
     extra := ∅ |}.

Definition example_cmdline (algo_str srl : string) (quiet : bool) : cmdline :=
  {| parse_known_args := example_args algo_str srl quiet;
     parse_args := example_args algo_str srl quiet;
     now := "04-11-26_10h00_00" |}.

Definition call_improving (l : gmap string pyval) : invocation :=
  {| inv_world := world_improving; inv_locals := l; inv_globals := ∅ |}.

Definition call_no_episode (l : gmap string pyval) : invocation :=
  {| inv_world := world_no_episode; inv_locals := l; inv_globals := ∅ |}.

(** The process right after the import of [train.py]. *)
Definition imported : state := mkState initial_globals ∅ [].

(** The process after [main] and [n] calls of the callback in which the
    log holds no episode yet. *)
Definition trained (algo_str : string) (quiet : bool) (n : nat) : state :=
  run_callbacks (Hext := example_helpers)
    (repeat (call_no_episode locals_without_model) n)
    (snd (main (Hext := example_helpers)
               (example_cmdline algo_str "" quiet) imported)).

(** ** Observations on the calls of one invocation, statement by statement *)

(** The Visdom connection of [callback]: made when [viz] is [None]. *)
Definition connect_events (g : globals) : list event :=
  if is_None (viz g) then [EvVisdom (VISDOM_PORT g)] else [].

(** The dump of the filtered [_locals]: made until [params_saved] is set. *)
Definition params_events `{Hext : helpers} (l : gmap string pyval)
  (g : globals) : list event :=
  if params_saved g then []
  else [EvJsonDump (LOG_DIR g +:+ "rl_locals.json")
                   (filterJSONSerializableObjects l)].

(** The evaluation at a save step: the read of the reward log, the printed
    line when the read is ok, and the checkpoint when the reward improved. *)
Definition evaluation_events (w : world) (l : gmap string pyval)
  (g : globals) : list event :=
  if save_step g then
    let r := computeMeanReward w (LOG_DIR g) (N_EPISODES_EVAL g) in
    (EvComputeMeanReward (LOG_DIR g) (N_EPISODES_EVAL g)
     :: (if fst r then [EvPrintRewards (best_mean_reward g) (snd r)] else []))
    ++ (if improved w g then checkpoint_saves w l g else [])
  else [].

(** The call reaches the plots and refreshes them. *)
Definition plots_now (w : world) (l : gmap string pyval) (g : globals)
  : bool :=
  match checkpoint_error w l g with
  | Some _ => false
  | None => viz_enabled g && log_step g
  end.

Definition plot_events (w : world) (l : gmap string pyval) (g : globals)
  : list event :=
  if plots_now w l g then plot_refreshes g else [].

(** [viz] holds one of the values the module gives it. *)
Definition viz_well_formed (v : pyval) : bool :=
  match v with
  | PyNone | PyBool false | PyVisdom _ => true
  | _ => false
  end.

(** The reward is not a NaN. *)
Definition is_number (r : reward) : bool :=
  match r with S754_nan => false | _ => true end.

(** The attributes [configureEnvAndLogFolder] gives the [kuka_env] module
    for a supported SRL model. *)
Definition configured_kuka_env `{Hext : helpers} (args : Namespace)
  (kuka_env : gmap string pyval) : gmap string pyval :=
  if String.eqb (srl_model args) "" then kuka_env
  else if String.eqb (srl_model args) "ground_truth" then
    <["USE_GROUND_TRUTH" := PyBool true]> kuka_env
  else
    match models !! srl_model args, models !! "log_folder" with
    | Some path, Some folder =>
        <["SRL_MODEL_PATH" := PyStr (folder +:+ path)]>
          (<["USE_SRL" := PyBool true]> kuka_env)
    | _, _ => kuka_env
    end.

(** The title of the plots after [configureEnvAndLogFolder]. *)
Definition configured_plot_title (args : Namespace) (title : string)
  : string :=
  if String.eqb (srl_model args) "" then title
  else if String.eqb (srl_model args) "ground_truth" then "Ground Truth"
  else srl_model args.

(** The training loop of the algorithm [a] keeps its model in [_locals]:
    under the key of [a], when [a] has one, the call finds an object that
    has a [save] method. *)
Definition holds_model (a : string) (i : invocation) : Prop :=
  match model_key a with
  | Some k => exists v, inv_locals i !! k = Some v /\
                        has_save_method (inv_world i) v = true
  | None => True
  end.

(** The outcomes of the calls of a run, in order. *)
Fixpoint run_outcomes `{Hext : helpers} (invs : list invocation) (s : state)
  : list (outcome bool) :=
  match invs with
  | [] => []
  | i :: rest =>
      fst (callback (inv_world i) (inv_locals i) (inv_globals i) s)
      :: run_outcomes rest (invoke i s)
  end.

(** A table that lists a model but not the folder of the models. *)
Definition models_without_folder : gmap string string :=
  <["autoencoder" := "autoencoder/srl_ae_model.pth"]> ∅.

Definition helpers_without_folder : helpers :=
  {| filterJSONSerializableObjects := keep_json_safe;
     getGlobals := fun attrs => attrs;
     models := models_without_folder |}.

(** The log gives a mean reward that is a NaN. *)
Definition world_nan : world :=
  {| computeMeanReward := fun _ _ => (true, S754_nan);
     visdom_plot := fun _ _ _ _ _ _ _ _ => PyObj 11;
     episode_plot := fun _ _ _ _ _ _ _ => PyObj 12;
     has_save := is_model_object |}.

(** * Properties *)

(** ** The order on rewards *)

Lemma compare_cont_Eq (p q : positive) :
  Pos.compare_cont Eq p q = (p ?= q)%positive.
Proof. reflexivity. Qed.

Ltac solve_cmp :=
  repeat match goal with
  | H : context [Pos.compare_cont Eq ?p ?q] |- _ =>
      rewrite (compare_cont_Eq p q) in H
  | |- context [Pos.compare_cont Eq ?p ?q] => rewrite (compare_cont_Eq p q)
  end;
  repeat match goal with
  | H : context [(?a ?= ?b)%Z] |- _ =>
      destruct (Z.compare_spec a b); simpl in H; try discriminate H
  | H : context [(?a ?= ?b)%positive] |- _ =>
      destruct (Pos.compare_spec a b); simpl in H; try discriminate H
  | |- context [(?a ?= ?b)%Z] => destruct (Z.compare_spec a b); simpl
  | |- context [(?a ?= ?b)%positive] =>
      destruct (Pos.compare_spec a b); simpl
  end;
  try reflexivity; try discriminate; try lia.

Lemma SFleb_trans (a b c : spec_float) :
  SFleb a b = true -> SFleb b c = true -> SFleb a c = true.
Proof.
  unfold SFleb, SFcompare.
  destruct a as [[]|[]| |[] ma ea], b as [[]|[]| |[] mb eb],
    c as [[]|[]| |[] mc ec]; simpl; intros H1 H2;
    try discriminate; try reflexivity; solve_cmp.
Qed.

Lemma SFltb_leb (a b : spec_float) : SFltb a b = true -> SFleb a b = true.
Proof.
  unfold SFltb, SFleb. destruct (SFcompare a b) as [[]|]; congruence.
Qed.

Lemma SFleb_not_ltb (a b : spec_float) :
  SFleb a b = true -> SFltb b a = false.
Proof.
  unfold SFleb, SFltb, SFcompare.
  destruct a as [[]|[]| |[] ma ea], b as [[]|[]| |[] mb eb]; simpl;
    intros H1; try discriminate; try reflexivity; solve_cmp.
Qed.

Lemma SFleb_refl_right (a b : spec_float) :
  SFleb a b = true -> SFleb b b = true.
Proof.
  unfold SFleb, SFcompare.
  destruct a as [[]|[]| |[] ma ea], b as [[]|[]| |[] mb eb]; simpl;
    intros H1; try discriminate; try reflexivity;
    rewrite ?Z.compare_refl, ?compare_cont_Eq, ?Pos.compare_refl;
    reflexivity.
Qed.

(** [>=] is transitive, [>] implies [>=], and a reward that is [>=] some
    reward is not NaN, hence [>=] itself. *)
Lemma py_ge_trans (a b c : reward) :
  py_ge a b = true -> py_ge b c = true -> py_ge a c = true.
Proof. unfold py_ge. intros H1 H2. exact (SFleb_trans c b a H2 H1). Qed.

Lemma py_gt_ge (a b : reward) : py_gt a b = true -> py_ge a b = true.
Proof. apply SFltb_leb. Qed.

Lemma py_ge_refl_left (a b : reward) : py_ge a b = true -> py_ge a a = true.
Proof. unfold py_ge. apply SFleb_refl_right. Qed.

Lemma py_ge_not_gt (a b : reward) : py_ge a b = true -> py_gt b a = false.
Proof. unfold py_ge, py_gt. apply SFleb_not_ltb. Qed.

(** [-10000.0] is a binary64 number. *)
Lemma neg_10000_binary64 :
  bounded 53 1024 5497558138880000 (-39) = true /\
  Z.pos 5497558138880000 * 2 ^ 39 = 10000 * 2 ^ 78.
Proof. split; reflexivity. Qed.

(** ** Strings *)

Lemma append_eqb (d a b : string) :
  String.eqb (d +:+ a) (d +:+ b) = String.eqb a b.
Proof.
  induction d as [|c d IH]; simpl; [reflexivity|].
  by rewrite Ascii.eqb_refl.
Qed.

(** ** Traces *)

Lemma extends_refl (s : state) : extends s s.
Proof.
  unfold extends, new_events. by rewrite drop_all, app_nil_r.
Qed.

Lemma extends_trans (s s' s'' : state) :
  extends s s' -> extends s' s'' ->
  extends s s'' /\
  new_events s s'' = (new_events s s' ++ new_events s' s'')%list.
Proof.
  unfold extends. intros H1 H2.
  assert (H3 : new_events s s'' = (new_events s s' ++ new_events s' s'')%list).
  { unfold new_events at 1. rewrite H2, H1 at 1.
    rewrite <- app_assoc. apply drop_app_length. }
  split; [|exact H3]. rewrite H3, app_assoc, <- H1. exact H2.
Qed.

Lemma filter_nil_app {A} (f : A -> bool) (l1 l2 : list A) :
  List.filter f l1 = [] -> List.filter f l2 = [] ->
  List.filter f (l1 ++ l2) = [].
Proof. intros H1 H2. by rewrite List.filter_app, H1, H2. Qed.

(** ** Symbolic execution of the monadic code *)

Ltac case_cond :=
  match goal with
  | |- context [match ?x with _ => _ end] =>
      lazymatch x with
      | context [match _ with _ => _ end] => fail
      | _ => destruct x eqn:?
      end
  end.

Ltac run_py :=
  lazy beta iota zeta delta
    [callback connect_visdom save_params save_if_improved save_best_model
     refresh_plots main configureEnvAndLogFolder saveEnvParams json_dump_to
     bind when ret raise emit modify_globals get_globals get_kuka_env
     setattr_kuka_env py_mod getitem call_save
     save_step log_step improved last_mean_reward checkpoint_error
     checkpoint_saves model_key viz_enabled viz_client plot_refreshes
     srl_folder derived_log_dir srl_supported new_events invoke
     is_visualization negb andb orb];
  cbn beta iota zeta delta
    [st_globals st_kuka_env st_trace fst snd truthy is_None
     VISDOM_PORT LOG_INTERVAL LOG_DIR ALGO ENV_NAME PLOT_TITLE
     EPISODE_WINDOW viz n_steps SAVE_INTERVAL N_EPISODES_EVAL params_saved
     best_mean_reward win win_smooth win_episodes
     set_VISDOM_PORT set_LOG_INTERVAL set_LOG_DIR set_ALGO set_ENV_NAME
     set_PLOT_TITLE set_viz set_n_steps set_SAVE_INTERVAL set_params_saved
     set_best_mean_reward set_win set_win_smooth set_win_episodes
     algo env seed log_dir num_timesteps srl_model num_stack action_repeat
     port no_vis extra set_log_dir parse_known_args parse_args now
     inv_world inv_locals inv_globals
     String.eqb Ascii.eqb Bool.eqb String.append algo_name].

(** Names the components of the state [s]. *)
Ltac open_state s :=
  destruct s as [[vp li ld al en pt ew vz ns si ne ps bm w1 w2 w3] kenv tr];
  cbn [st_globals st_kuka_env st_trace
       VISDOM_PORT LOG_INTERVAL LOG_DIR ALGO ENV_NAME PLOT_TITLE
       EPISODE_WINDOW viz n_steps SAVE_INTERVAL N_EPISODES_EVAL params_saved
       best_mean_reward win win_smooth win_episodes] in *.

(** Runs [m] once on the state it is applied to in the goal, splits on the
    conditions met on the way, and brings the goal to the outcome and the
    state of each path. *)
Ltac start_run m :=
  let out := fresh "out" in
  let s' := fresh "s'" in
  let E := fresh "E" in
  match goal with
  | |- context [m ?st] =>
      destruct (m st) as [out s'] eqn:E; revert E; run_py
  end.

Ltac finish_run :=
  let E := fresh "E" in
  repeat (case_cond; first [ exfalso; congruence | run_py ]);
  intros E; injection E as <- <-; run_py.

Ltac run_on m := start_run m; finish_run.

(** Brings [drop (length tr) (tr ++ evs)] to [evs] and filters [evs]. *)
Ltac events_done :=
  rewrite <- ?app_assoc; rewrite ?drop_app_length; rewrite ?drop_all;
  rewrite ?app_nil_r;
  cbn [List.filter is_reward_read is_save is_plot is_visdom is_algo_main
       writes_file app orb];
  rewrite ?append_eqb, ?String.eqb_refl;
  cbn [String.eqb Ascii.eqb Bool.eqb].

Ltac subst_algo :=
  repeat match goal with
         | H : String.eqb ?a ?b = true |- _ =>
             apply String.eqb_eq in H; subst a
         end.

(** The same, with the observations on the configuration unfolded. *)
Ltac run_more :=
  lazy beta iota zeta delta
    [connect_events params_events evaluation_events plots_now plot_events
     configured_kuka_env configured_plot_title];
  run_py.

Section Properties.

Context `{Hext : helpers}.

(** *** One call of the callback *)

(** What a call of [callback] does whatever its outcome: the globals it
    leaves alone, the parameters file, the Visdom connection. *)
Lemma callback_frame w l gl s :
  let g := st_globals s in
  let s' := snd (callback w l gl s) in
  let g' := st_globals s' in
  let evs := new_events s s' in
  st_kuka_env s' = st_kuka_env s /\
  LOG_DIR g' = LOG_DIR g /\ ALGO g' = ALGO g /\
  SAVE_INTERVAL g' = SAVE_INTERVAL g /\ LOG_INTERVAL g' = LOG_INTERVAL g /\
  params_saved g' = true /\ viz g' = viz_client g /\
  (best_mean_reward g' = best_mean_reward g \/
   py_gt (best_mean_reward g') (best_mean_reward g) = true) /\
  extends s s' /\
  List.filter (writes_file (LOG_DIR g +:+ "rl_locals.json")) evs =
    (if params_saved g then []
     else [EvJsonDump (LOG_DIR g +:+ "rl_locals.json")
                      (filterJSONSerializableObjects l)]) /\
  (viz g = PyBool false -> List.filter is_visualization evs = []).
Proof.
  open_state s. unfold extends.
  run_on (callback w l gl); events_done; repeat split; auto;
    try discriminate; intros ->; discriminate.
Qed.

(** The calls and the outcome of [callback] when neither interval is
    zero. *)
Lemma callback_summary w l gl s :
  SAVE_INTERVAL (st_globals s) <> 0 -> LOG_INTERVAL (st_globals s) <> 0 ->
  let g := st_globals s in
  let out := fst (callback w l gl s) in
  let s' := snd (callback w l gl s) in
  let evs := new_events s s' in
  List.filter is_reward_read evs =
    (if save_step g
     then [EvComputeMeanReward (LOG_DIR g) (N_EPISODES_EVAL g)] else []) /\
  best_mean_reward (st_globals s') =
    (if save_step g && improved w g
     then last_mean_reward w g else best_mean_reward g) /\
  List.filter is_save evs =
    (if save_step g && improved w g then checkpoint_saves w l g else []) /\
  List.filter is_plot evs =
    (match checkpoint_error w l g with
     | Some _ => []
     | None => if viz_enabled g && log_step g then plot_refreshes g else []
     end) /\
  match checkpoint_error w l g with
  | Some e => out = Raises e /\
              n_steps (st_globals s') = n_steps g
  | None => out = Returns false /\
            n_steps (st_globals s') = n_steps g + 1
  end.
Proof.
  intros HS HL. apply Z.eqb_neq in HS, HL. open_state s.
  run_on (callback w l gl); events_done; repeat split; try congruence;
    subst_algo; reflexivity.
Qed.


(** *** The entry point *)

(** What [main] does whatever its outcome. *)
Lemma main_frame c s :
  let g := st_globals s in
  let s' := snd (main c s) in
  let g' := st_globals s' in
  params_saved g' = params_saved g /\
  best_mean_reward g' = best_mean_reward g /\
  n_steps g' = n_steps g /\
  (SAVE_INTERVAL g' = SAVE_INTERVAL g \/ SAVE_INTERVAL g' = 20) /\
  (LOG_INTERVAL g' = LOG_INTERVAL g \/ LOG_INTERVAL g' = 1 \/
   LOG_INTERVAL g' = 10) /\
  viz g' = (if no_vis (parse_known_args c) then PyBool false else viz g) /\
  extends s s' /\
  List.filter is_visualization (new_events s s') = [].
Proof.
  open_state s. unfold extends.
  run_on (main c); events_done; repeat split; auto.
Qed.

(** The calls of [main], in order, when argparse accepted the algorithm
    and the SRL model is supported. *)
Lemma main_trace c s m :
  algo (parse_known_args c) = algo_name m ->
  srl_supported (parse_args c) = true ->
  let g := st_globals s in
  let s' := snd (main c s) in
  let g' := st_globals s' in
  let d := derived_log_dir (parse_args c) (algo_name m) (now c) in
  let args := set_log_dir d (parse_args c) in
  let env_globals :=
    filterJSONSerializableObjects (getGlobals (st_kuka_env s')) in
  fst (main c s) = Returns tt /\
  new_events s s' =
    [EvPrintGreen (newline +:+ "Agent = " +:+ algo_name m +:+ " " +:+ newline);
     EvCustomArguments m;
     EvMakedirs d;
     EvJsonDump (d +:+ "args.json") (filterJSONSerializableObjects (vars args));
     EvPrintYellow "Arguments:";
     EvPprint (filterJSONSerializableObjects (vars args));
     EvPrintYellow "Kuka Env Globals:";
     EvPprint env_globals;
     EvJsonDump (d +:+ "kuka_env_globals.json") env_globals;
     EvSetGlobalSeeds (seed (parse_args c));
     EvAlgoMain m args] /\
  ALGO g' = algo_name m /\
  ENV_NAME g' = env (parse_known_args c) /\
  VISDOM_PORT g' = port (parse_known_args c) /\
  LOG_DIR g' = d /\
  LOG_INTERVAL g' =
    match m with acer => 1 | ppo2 => 10 | _ => LOG_INTERVAL g end /\
  SAVE_INTERVAL g' = match m with acer => 20 | _ => SAVE_INTERVAL g end.
Proof.
  intros Halgo Hsrl. open_state s. revert Hsrl.
  destruct m; cbn [algo_name] in Halgo |- *.
  all: start_run (main c); rewrite Halgo; finish_run; events_done;
    try discriminate; intros _; repeat split; reflexivity.
Qed.

(** What [main] does before it configures the log folder, and when it
    fails: for an algorithm argparse accepts, [main] returns exactly when
    the SRL model is supported, and otherwise has only printed the agent
    and asked the algorithm for its flags. *)
Lemma main_effects c s m :
  algo (parse_known_args c) = algo_name m ->
  let g := st_globals s in
  let r := main c s in
  let g' := st_globals (snd r) in
  (ALGO g' = algo_name m /\ ENV_NAME g' = env (parse_known_args c) /\
   VISDOM_PORT g' = port (parse_known_args c) /\
   LOG_INTERVAL g' =
     match m with acer => 1 | ppo2 => 10 | _ => LOG_INTERVAL g end /\
   SAVE_INTERVAL g' = match m with acer => 20 | _ => SAVE_INTERVAL g end) /\
  (srl_supported (parse_args c) = true ->
   fst r = Returns tt /\
   st_kuka_env (snd r) =
     configured_kuka_env (parse_args c)
       (<["ACTION_REPEAT" := PyInt (action_repeat (parse_known_args c))]>
          (st_kuka_env s)) /\
   PLOT_TITLE g' = configured_plot_title (parse_args c) (PLOT_TITLE g)) /\
  (srl_supported (parse_args c) = false ->
   fst r =
     Raises (match models !! srl_model (parse_args c) with
             | Some _ => KeyError "log_folder"
             | None => ValueError ("Unsupported value for srl-model: "
                                   +:+ srl_model (parse_args c))
             end) /\
   new_events s (snd r) =
     [EvPrintGreen (newline +:+ "Agent = " +:+ algo_name m +:+ " " +:+ newline);
      EvCustomArguments m] /\
   LOG_DIR g' = LOG_DIR g).
Proof.
  intros Halgo. open_state s.
  destruct m; cbn [algo_name] in Halgo |- *.
  all: start_run (main c); run_more; rewrite Halgo; finish_run; run_more;
    events_done.
  all: split; [repeat split; reflexivity|].
  all: split; intros H; try discriminate H; repeat split; reflexivity.
Qed.

(** *** Runs of calls *)

Lemma run_callbacks_frame invs s :
  LOG_DIR (st_globals (run_callbacks invs s)) = LOG_DIR (st_globals s) /\
  extends s (run_callbacks invs s).
Proof.
  revert s. induction invs as [|i invs IH]; intros s; simpl.
  - split; [reflexivity | apply extends_refl].
  - destruct (IH (invoke i s)) as [IH1 IH2].
    destruct (callback_frame (inv_world i) (inv_locals i) (inv_globals i) s)
      as (_ & Hdir & _ & _ & _ & _ & _ & _ & Hext1 & _).
    fold (invoke i s) in Hdir, Hext1. split; [congruence|].
    by apply (extends_trans s (invoke i s)).
Qed.

(** Once the parameters are saved, no call writes [rl_locals.json]. *)
Lemma run_callbacks_rl_locals invs s :
  params_saved (st_globals s) = true ->
  List.filter (writes_file (LOG_DIR (st_globals s) +:+ "rl_locals.json"))
              (new_events s (run_callbacks invs s)) = [].
Proof.
  revert s. induction invs as [|i invs IH]; intros s Hsaved; simpl.
  - unfold new_events. by rewrite drop_all.
  - destruct (callback_frame (inv_world i) (inv_locals i) (inv_globals i) s)
      as (_ & Hdir & _ & _ & _ & Hsaved' & _ & _ & Hext1 & Hfile & _).
    fold (invoke i s) in Hdir, Hsaved', Hext1, Hfile.
    rewrite Hsaved in Hfile.
    destruct (run_callbacks_frame invs (invoke i s)) as [_ Hext2].
    destruct (extends_trans _ _ _ Hext1 Hext2) as [_ ->].
    apply filter_nil_app; [exact Hfile|].
    rewrite <- Hdir. by apply IH.
Qed.

(** With [viz] set to [False], no call connects to Visdom or plots. *)
Lemma run_callbacks_no_vis invs s :
  viz (st_globals s) = PyBool false ->
  List.filter is_visualization (new_events s (run_callbacks invs s)) = [].
Proof.
  revert s. induction invs as [|i invs IH]; intros s Hviz; simpl.
  - unfold new_events. by rewrite drop_all.
  - destruct (callback_frame (inv_world i) (inv_locals i) (inv_globals i) s)
      as (_ & _ & _ & _ & _ & _ & Hviz' & _ & Hext1 & _ & Hnone).
    fold (invoke i s) in Hviz', Hext1, Hnone.
    destruct (run_callbacks_frame invs (invoke i s)) as [_ Hext2].
    destruct (extends_trans _ _ _ Hext1 Hext2) as [_ ->].
    apply filter_nil_app; [by apply Hnone|].
    apply IH. rewrite Hviz'. unfold viz_client. by rewrite Hviz.
Qed.

(** The best mean reward never decreases along a run. *)
Lemma run_callbacks_best invs s :
  py_ge (best_mean_reward (st_globals s))
        (best_mean_reward (st_globals s)) = true ->
  py_ge (best_mean_reward (st_globals (run_callbacks invs s)))
        (best_mean_reward (st_globals s)) = true.
Proof.
  revert s. induction invs as [|i invs IH]; intros s Hrefl; simpl.
  - exact Hrefl.
  - destruct (callback_frame (inv_world i) (inv_locals i) (inv_globals i) s)
      as (_ & _ & _ & _ & _ & _ & _ & Hbest & _).
    fold (invoke i s) in Hbest.
    assert (Hstep : py_ge (best_mean_reward (st_globals (invoke i s)))
                          (best_mean_reward (st_globals s)) = true).
    { destruct Hbest as [-> | Hgt]; [exact Hrefl | by apply py_gt_ge]. }
    apply (py_ge_trans _ (best_mean_reward (st_globals (invoke i s)))).
    + apply IH. by apply (py_ge_refl_left _ _ Hstep).
    + exact Hstep.
Qed.

Lemma reachable_run_callbacks invs s :
  reachable s -> reachable (run_callbacks invs s).
Proof.
  revert s. induction invs as [|i invs IH]; intros s Hs; simpl.
  - exact Hs.
  - apply IH. by apply reach_callback.
Qed.

(** *** Invariants of the process *)

(** In every state of a process the two intervals have one of the values
    the module assigns, and the best mean reward is at least [-10000]. *)
Lemma reachable_invariant s :
  reachable s ->
  let g := st_globals s in
  (SAVE_INTERVAL g = 500 \/ SAVE_INTERVAL g = 20) /\
  (LOG_INTERVAL g = 100 \/ LOG_INTERVAL g = 1 \/ LOG_INTERVAL g = 10) /\
  py_ge (best_mean_reward g) neg_10000 = true.
Proof.
  induction 1 as [kenv | c s Hs IH | w l gl s Hs IH]; cbn zeta in *.
  - cbn. repeat split; auto.
  - destruct IH as (HS & HL & HB).
    destruct (main_frame c s) as (_ & Hb & _ & HS' & HL' & _).
    rewrite Hb. repeat split; [| | exact HB].
    + destruct HS' as [-> | ->]; auto.
    + destruct HL' as [-> | [-> | ->]]; auto.
  - destruct IH as (HS & HL & HB).
    destruct (callback_frame w l gl s)
      as (_ & _ & _ & HS' & HL' & _ & _ & Hb & _).
    rewrite HS', HL'. repeat split; auto.
    destruct Hb as [-> | Hgt]; [exact HB|].
    apply (py_ge_trans _ (best_mean_reward (st_globals s))); [|exact HB].
    by apply py_gt_ge.
Qed.

Lemma reachable_intervals s :
  reachable s ->
  SAVE_INTERVAL (st_globals s) <> 0 /\ LOG_INTERVAL (st_globals s) <> 0.
Proof.
  intros Hs. destruct (reachable_invariant s Hs) as (HS & HL & _).
  split; [destruct HS as [-> | ->] | destruct HL as [-> | [-> | ->]]];
    discriminate.
Qed.

(** ** The claims *)

(** C1, as the code has it.  In every call of [callback] by a process, the
    reward log is read (once) exactly at the steps where [n_steps + 1] is a
    multiple of [SAVE_INTERVAL]; at such a step [best_mean_reward] becomes
    the mean reward ([-10000] when there are not enough episodes) exactly
    when that mean reward is strictly greater; and [.save()] is called
    exactly when, moreover, [ALGO] is one of deepq, acer, a2c and ppo2 and
    [_locals] holds, under the key of that algorithm, an object that has a
    [save] method. *)
Theorem callback_evaluates_at_save_steps w l gl s :
  reachable s ->
  let g := st_globals s in
  let s' := snd (callback w l gl s) in
  let evs := new_events s s' in
  List.filter is_reward_read evs =
    (if save_step g
     then [EvComputeMeanReward (LOG_DIR g) (N_EPISODES_EVAL g)] else []) /\
  best_mean_reward (st_globals s') =
    (if save_step g && improved w g
     then last_mean_reward w g else best_mean_reward g) /\
  List.filter is_save evs =
    (if save_step g && improved w g then checkpoint_saves w l g else []).
Proof.
  intros Hs. destruct (reachable_intervals s Hs) as [HS HL].
  destruct (callback_summary w l gl s HS HL) as (H1 & H2 & H3 & _).
  auto.
Qed.

(** C2, as the code has it.  At a save step with a mean reward strictly
    greater than the best, deepq saves [_locals['act']] and acer, a2c and
    ppo2 save [_locals['model']], each to [LOG_DIR + "<algo>_model.pkl"],
    when the object found there has a [save] method; when it has none the
    call raises [AttributeError] and nothing is saved; random_agent and
    random_search save nothing. *)
Theorem callback_checkpoint_by_algorithm w l gl s m :
  reachable s ->
  let g := st_globals s in
  let r := callback w l gl s in
  let saves := List.filter is_save (new_events s (snd r)) in
  ALGO g = algo_name m ->
  save_step g = true ->
  improved w g = true ->
  match m with
  | deepq =>
      forall v, l !! "act" = Some v ->
        if has_save_method w v
        then saves = [EvSave v (LOG_DIR g +:+ "deepq_model.pkl")]
        else saves = [] /\ fst r = Raises (AttributeError "save")
  | acer =>
      forall v, l !! "model" = Some v ->
        if has_save_method w v
        then saves = [EvSave v (LOG_DIR g +:+ "acer_model.pkl")]
        else saves = [] /\ fst r = Raises (AttributeError "save")
  | a2c =>
      forall v, l !! "model" = Some v ->
        if has_save_method w v
        then saves = [EvSave v (LOG_DIR g +:+ "a2c_model.pkl")]
        else saves = [] /\ fst r = Raises (AttributeError "save")
  | ppo2 =>
      forall v, l !! "model" = Some v ->
        if has_save_method w v
        then saves = [EvSave v (LOG_DIR g +:+ "ppo2_model.pkl")]
        else saves = [] /\ fst r = Raises (AttributeError "save")
  | random_agent | random_search => saves = []
  end.
Proof.
  intros Hs g r saves Halgo Hstep Himp.
  destruct (reachable_intervals s Hs) as [HS HL].
  destruct (callback_summary w l gl s HS HL) as (_ & _ & H3 & _ & H5).
  fold g r in H3, H5. fold saves in H3. rewrite H3.
  unfold checkpoint_error in H5. rewrite Hstep, Himp in *. cbn [andb] in *.
  unfold checkpoint_saves. unfold model_key in *. rewrite Halgo in *.
  destruct m; cbn in *; try reflexivity; intros v Hv; rewrite Hv in *;
    destruct (has_save_method w v); try reflexivity;
    (split; [reflexivity | by destruct H5]).
Qed.

(** C3.  At a save step where the mean reward is not strictly greater than
    the best (in particular when there are not enough episodes, the mean
    reward then being [-10000]), the call makes no [.save()] call and leaves
    [best_mean_reward] as it is; it returns [False] and only moves on to the
    next step, so that the log is read again at the next save step. *)
Theorem callback_keeps_best_when_insufficient w l gl s :
  reachable s ->
  let g := st_globals s in
  let s' := snd (callback w l gl s) in
  save_step g = true ->
  improved w g = false \/
  fst (computeMeanReward w (LOG_DIR g) (N_EPISODES_EVAL g)) = false ->
  List.filter is_save (new_events s s') = [] /\
  best_mean_reward (st_globals s') = best_mean_reward g /\
  fst (callback w l gl s) = Returns false /\
  n_steps (st_globals s') = n_steps g + 1 /\
  SAVE_INTERVAL (st_globals s') = SAVE_INTERVAL g.
Proof.
  intros Hs g s' Hstep Hlow.
  destruct (reachable_intervals s Hs) as [HS HL].
  destruct (reachable_invariant s Hs) as (_ & _ & HB).
  assert (Himp : improved w g = false).
  { destruct Hlow as [H | H]; [exact H|].
    unfold improved, last_mean_reward.
    destruct (computeMeanReward w (LOG_DIR g) (N_EPISODES_EVAL g))
      as [ok r]; cbn in H; subst ok.
    by apply py_ge_not_gt. }
  destruct (callback_summary w l gl s HS HL) as (_ & H2 & H3 & _ & H5).
  destruct (callback_frame w l gl s) as (_ & _ & _ & H6 & _).
  fold g s' in H2, H3, H5, H6. unfold checkpoint_error in H5. fold g in H5.
  rewrite Hstep, Himp in *. cbn [andb] in *. destruct H5 as [H5 H5'].
  repeat split; assumption.
Qed.

(** C4, as the code has it.  When the SRL model is supported (none, the
    ground truth, or a model of the table, which then gives its folder),
    [configureEnvAndLogFolder] appends to [args.log_dir] the SRL model name
    and ["/"], or ["raw_pixels/"] when there is no SRL model, then the
    algorithm name and the date, each followed by ["/"]; it sets [LOG_DIR]
    to that path, creates the directory and returns [args]; [main] then
    dumps the filtered arguments to [LOG_DIR + "args.json"].  For any other
    SRL model it raises [ValueError]: [LOG_DIR] is not set and no directory
    is created. *)
Theorem configure_log_folder :
  (forall args stamp s,
     srl_supported args = true ->
     let d := derived_log_dir args (ALGO (st_globals s)) stamp in
     let r := configureEnvAndLogFolder args stamp s in
     fst r = Returns (set_log_dir d args) /\
     LOG_DIR (st_globals (snd r)) = d /\
     new_events s (snd r) = [EvMakedirs d]) /\
  (forall c s m,
     algo (parse_known_args c) = algo_name m ->
     srl_supported (parse_args c) = true ->
     let d := derived_log_dir (parse_args c) (algo_name m) (now c) in
     let s' := snd (main c s) in
     LOG_DIR (st_globals s') = d /\
     exists before after,
       new_events s s' =
         (before ++
          [EvMakedirs d;
           EvJsonDump (LOG_DIR (st_globals s') +:+ "args.json")
                      (filterJSONSerializableObjects
                         (vars (set_log_dir d (parse_args c))))] ++
          after)%list) /\
  (forall args stamp s,
     srl_model args <> "" -> srl_model args <> "ground_truth" ->
     models !! srl_model args = None ->
     let r := configureEnvAndLogFolder args stamp s in
     fst r = Raises (ValueError ("Unsupported value for srl-model: "
                                 +:+ srl_model args)) /\
     LOG_DIR (st_globals (snd r)) = LOG_DIR (st_globals s) /\
     new_events s (snd r) = []).
Proof.
  split; [|split].
  - intros args stamp s Hsrl. open_state s. revert Hsrl.
    run_on (configureEnvAndLogFolder args stamp); events_done;
      try discriminate; intros _; repeat split; reflexivity.
  - intros c s m Halgo Hsrl d s'.
    destruct (main_trace c s m Halgo Hsrl)
      as (_ & Htr & _ & _ & _ & Hdir & _).
    fold s' d in Htr, Hdir. split; [exact Hdir|].
    rewrite Hdir, Htr. eexists [_; _], _. reflexivity.
  - intros args stamp s H1 H2 H3. open_state s.
    apply String.eqb_neq in H1, H2. revert H3.
    start_run (configureEnvAndLogFolder args stamp).
    rewrite H1, H2. finish_run; events_done; try discriminate;
      intros _; repeat split; reflexivity.
Qed.

(** C5, as the code has it.  In every call of [callback] by a process, the
    three plot refreshes ([visdom_plot] twice, then [episode_plot]) are made
    exactly when visualization is enabled, [n_steps + 1] is a multiple of
    [LOG_INTERVAL], and the checkpoint before them did not raise ([KeyError]
    for want of the model in [_locals], [AttributeError] for a value
    without [save]); and after a [main] run with [--no-vis], no call of
    [callback] creates a Visdom connection or refreshes a plot. *)
Theorem callback_plots_when_enabled :
  (forall w l gl s,
     reachable s ->
     let g := st_globals s in
     List.filter is_plot (new_events s (snd (callback w l gl s))) =
       match checkpoint_error w l g with
       | Some _ => []
       | None =>
           if viz_enabled g && log_step g then plot_refreshes g else []
       end) /\
  (forall c s invs,
     no_vis (parse_known_args c) = true ->
     List.filter is_visualization
       (new_events s (run_callbacks invs (snd (main c s)))) = []).
Proof.
  split.
  - intros w l gl s Hs. destruct (reachable_intervals s Hs) as [HS HL].
    by destruct (callback_summary w l gl s HS HL) as (_ & _ & _ & H4 & _).
  - intros c s invs Hquiet.
    destruct (main_frame c s) as (_ & _ & _ & _ & _ & Hviz & Hext1 & Hnone).
    rewrite Hquiet in Hviz.
    destruct (run_callbacks_frame invs (snd (main c s))) as [_ Hext2].
    destruct (extends_trans _ _ _ Hext1 Hext2) as [_ ->].
    apply filter_nil_app; [exact Hnone|].
    by apply run_callbacks_no_vis.
Qed.

(** C6.  [saveEnvParams] makes one call: it dumps, as JSON, the filtered
    globals of the [kuka_env] module to [LOG_DIR + "kuka_env_globals.json"];
    it writes no other file and changes neither the globals nor the
    module. *)
Theorem saveEnvParams_writes_env_globals s :
  let g := st_globals s in
  let s' := snd (saveEnvParams s) in
  let path := LOG_DIR g +:+ "kuka_env_globals.json" in
  fst (saveEnvParams s) = Returns tt /\
  new_events s s' =
    [EvJsonDump path
       (filterJSONSerializableObjects (getGlobals (st_kuka_env s)))] /\
  (forall p,
     List.filter (writes_file p) (new_events s s') <> [] -> p = path) /\
  st_globals s' = g /\ st_kuka_env s' = st_kuka_env s.
Proof.
  destruct s as [g kenv tr]. run_py. events_done.
  repeat split; try reflexivity.
  intros p. destruct (String.eqb p _) eqn:Hp; [|congruence].
  intros _. by apply String.eqb_eq.
Qed.

(** C7, as the code has it.  For every command line argparse accepts and
    whose SRL model is supported, [main] sets the globals from the flags
    (with [LOG_INTERVAL = 1] and [SAVE_INTERVAL = 20] for acer and
    [LOG_INTERVAL = 10] for ppo2), configures the log folder, saves the
    arguments and the environment parameters, sets the seed and calls
    [main(args, callback)] of the selected algorithm: once, and last.  For
    every command line whose SRL model is not supported, [main] raises
    after it has printed the agent and asked the algorithm for its flags:
    it writes no file, creates no directory, sets no seed and does not call
    the algorithm. *)
Theorem main_delegates_last c s m :
  algo (parse_known_args c) = algo_name m ->
  let g := st_globals s in
  let s' := snd (main c s) in
  let g' := st_globals s' in
  let evs := new_events s s' in
  let d := derived_log_dir (parse_args c) (algo_name m) (now c) in
  let args := set_log_dir d (parse_args c) in
  let env_globals :=
    filterJSONSerializableObjects (getGlobals (st_kuka_env s')) in
  (srl_supported (parse_args c) = true ->
   fst (main c s) = Returns tt /\
   evs =
     [EvPrintGreen (newline +:+ "Agent = " +:+ algo_name m +:+ " " +:+ newline);
      EvCustomArguments m;
      EvMakedirs d;
      EvJsonDump (d +:+ "args.json")
                 (filterJSONSerializableObjects (vars args));
      EvPrintYellow "Arguments:";
      EvPprint (filterJSONSerializableObjects (vars args));
      EvPrintYellow "Kuka Env Globals:";
      EvPprint env_globals;
      EvJsonDump (d +:+ "kuka_env_globals.json") env_globals;
      EvSetGlobalSeeds (seed (parse_args c));
      EvAlgoMain m args] /\
   List.filter is_algo_main evs = [EvAlgoMain m args] /\
   last evs = Some (EvAlgoMain m args) /\
   ALGO g' = algo_name m /\ LOG_DIR g' = d /\
   LOG_INTERVAL g' =
     match m with acer => 1 | ppo2 => 10 | _ => LOG_INTERVAL g end /\
   SAVE_INTERVAL g' = match m with acer => 20 | _ => SAVE_INTERVAL g end) /\
  (srl_supported (parse_args c) = false ->
   fst (main c s) =
     Raises (match models !! srl_model (parse_args c) with
             | Some _ => KeyError "log_folder"
             | None => ValueError ("Unsupported value for srl-model: "
                                   +:+ srl_model (parse_args c))
             end) /\
   evs =
     [EvPrintGreen (newline +:+ "Agent = " +:+ algo_name m +:+ " " +:+ newline);
      EvCustomArguments m] /\
   List.filter is_algo_main evs = [] /\
   (forall p, List.filter (writes_file p) evs = [])).
Proof.
  intros Halgo g s' g' evs d args env_globals. split.
  - intros Hsrl.
    destruct (main_trace c s m Halgo Hsrl)
      as (Hout & Htr & Ha & _ & _ & Hdir & HL & HS).
    fold s' evs d args env_globals in Htr.
    repeat split; try assumption; rewrite Htr; reflexivity.
  - intros Hsrl.
    destruct (main_effects c s m Halgo) as (_ & _ & Hko).
    destruct (Hko Hsrl) as (Hr & Hev & _). fold s' evs in Hev.
    split; [exact Hr|]. split; [exact Hev|].
    rewrite Hev. split; [reflexivity | intros p; reflexivity].
Qed.

(** C8.  In every state of a process [best_mean_reward] is at least its
    initial value [-10000], and no call of [callback], nor any sequence of
    calls, leaves it lower than it was. *)
Theorem best_mean_reward_never_decreases s :
  reachable s ->
  let best := best_mean_reward (st_globals s) in
  py_ge best neg_10000 = true /\
  (forall w l gl,
     py_ge (best_mean_reward (st_globals (snd (callback w l gl s)))) best
     = true) /\
  (forall invs,
     py_ge (best_mean_reward (st_globals (run_callbacks invs s))) best
     = true).
Proof.
  intros Hs best. destruct (reachable_invariant s Hs) as (_ & _ & HB).
  assert (Hrefl : py_ge best best = true) by apply (py_ge_refl_left _ _ HB).
  split; [exact HB|]. split.
  - intros w l gl.
    apply (run_callbacks_best [mkInvocation w l gl] s Hrefl).
  - intros invs. by apply run_callbacks_best.
Qed.

(** C9.  A process starts with the parameters not saved, and [main] leaves
    them so.  The first call of [callback] then writes [rl_locals.json]
    once, with the filtered [_locals], and sets [params_saved]; no later
    call writes that file.  Hence no run of calls writes it more than
    once. *)
Theorem rl_locals_written_once :
  (forall c kenv,
     params_saved
       (st_globals (snd (main c (mkState initial_globals kenv []))))
     = false) /\
  (forall s i rest,
     params_saved (st_globals s) = false ->
     let path := LOG_DIR (st_globals s) +:+ "rl_locals.json" in
     let s1 := invoke i s in
     List.filter (writes_file path) (new_events s s1) =
       [EvJsonDump path (filterJSONSerializableObjects (inv_locals i))] /\
     params_saved (st_globals s1) = true /\
     List.filter (writes_file path) (new_events s1 (run_callbacks rest s1))
     = []) /\
  (forall s invs,
     let path := LOG_DIR (st_globals s) +:+ "rl_locals.json" in
     (length (List.filter (writes_file path)
                          (new_events s (run_callbacks invs s))) <= 1)%nat).
Proof.
  assert (Hfirst : forall s i rest,
    let path := LOG_DIR (st_globals s) +:+ "rl_locals.json" in
    let s1 := invoke i s in
    List.filter (writes_file path) (new_events s s1) =
      (if params_saved (st_globals s) then []
       else [EvJsonDump path
               (filterJSONSerializableObjects (inv_locals i))]) /\
    params_saved (st_globals s1) = true /\
    List.filter (writes_file path) (new_events s1 (run_callbacks rest s1))
    = [] /\
    new_events s (run_callbacks rest s1) =
      (new_events s s1 ++ new_events s1 (run_callbacks rest s1))%list).
  { intros s i rest path s1.
    destruct (callback_frame (inv_world i) (inv_locals i) (inv_globals i) s)
      as (_ & Hdir & _ & _ & _ & Hsaved & _ & _ & Hext1 & Hfile & _).
    fold (invoke i s) in Hdir, Hsaved, Hext1, Hfile. fold s1 in Hdir, Hsaved, Hext1, Hfile.
    destruct (run_callbacks_frame rest s1) as [_ Hext2].
    destruct (extends_trans _ _ _ Hext1 Hext2) as [_ Happ].
    repeat split; try assumption.
    unfold path. rewrite <- Hdir. by apply run_callbacks_rl_locals. }
  split; [|split].
  - intros c kenv.
    by destruct (main_frame c (mkState initial_globals kenv [])) as (-> & _).
  - intros s i rest Hnot path s1.
    destruct (Hfirst s i rest) as (H1 & H2 & H3 & _).
    fold path s1 in H1, H2, H3. rewrite Hnot in H1. auto.
  - intros s [|i rest] path; simpl.
    + unfold new_events. rewrite drop_all. simpl. lia.
    + destruct (Hfirst s i rest) as (H1 & _ & H3 & H4).
      fold path in H1, H3. rewrite H4, List.filter_app, H1, H3, app_nil_r.
      destruct (params_saved (st_globals s)); simpl; lia.
Qed.

(** C10, as the code has it.  A call of [callback] by a process returns
    [False] and adds exactly [1] to [n_steps], whatever it saved or
    plotted, unless its checkpoint raises: [KeyError] when [_locals] does
    not hold the key of the algorithm, [AttributeError] when the value
    under the key has no [save]; the call then raises that exception and
    leaves [n_steps] as it was. *)
Theorem callback_returns_false_and_counts w l gl s :
  reachable s ->
  let g := st_globals s in
  let s' := snd (callback w l gl s) in
  match checkpoint_error w l g with
  | Some e => fst (callback w l gl s) = Raises e /\
              n_steps (st_globals s') = n_steps g
  | None => fst (callback w l gl s) = Returns false /\
            n_steps (st_globals s') = n_steps g + 1
  end.
Proof.
  intros Hs. destruct (reachable_intervals s Hs) as [HS HL].
  by destruct (callback_summary w l gl s HS HL) as (_ & _ & _ & _ & H5).
Qed.

End Properties.

(** ** The claims on the example inputs *)

Lemma trained_reachable a q n :
  reachable (Hext := example_helpers) (trained a q n).
Proof.
  unfold trained. apply reachable_run_callbacks, reach_main, reach_import.
Qed.

(** C1 at the twentieth call of an acer run: the log is read, the best mean
    reward becomes [1.0] and the model is saved. *)
Lemma callback_evaluates_at_save_steps_witness :
  let s := trained "acer" false 19 in
  let g := st_globals s in
  let s' := snd (callback (Hext := example_helpers)
                          world_improving locals_with_model ∅ s) in
  let evs := new_events s s' in
  reachable (Hext := example_helpers) s /\
  List.filter is_reward_read evs =
    (if save_step g
     then [EvComputeMeanReward (LOG_DIR g) (N_EPISODES_EVAL g)] else []) /\
  best_mean_reward (st_globals s') =
    (if save_step g && improved world_improving g
     then last_mean_reward world_improving g else best_mean_reward g) /\
  List.filter is_save evs =
    (if save_step g && improved world_improving g
     then checkpoint_saves world_improving locals_with_model g else []).
Proof.
  split; [apply trained_reachable|].
  apply (callback_evaluates_at_save_steps (Hext := example_helpers)
           world_improving locals_with_model ∅ (trained "acer" false 19)).
  apply trained_reachable.
Defined.

(** C1 fails as stated: at the 500th call of a random_agent run the mean
    reward [1.0] is strictly greater than the best, [-10000], and becomes
    the best, but no [.save()] call is made. *)
Lemma save_not_triggered_for_random_agent :
  let s := trained "random_agent" false 499 in
  let g := st_globals s in
  let s' := snd (callback (Hext := example_helpers)
                          world_improving locals_with_model ∅ s) in
  save_step g = true /\
  computeMeanReward world_improving (LOG_DIR g) (N_EPISODES_EVAL g)
    = (true, reward_one) /\
  py_gt reward_one (best_mean_reward g) = true /\
  best_mean_reward (st_globals s') = reward_one /\
  List.filter is_save (new_events s s') = [].
Proof. vm_compute. repeat split. Qed.

(** C2 at the twentieth call of an acer run: [_locals['model']] is saved to
    [acer_model.pkl] under the log folder. *)
Lemma callback_checkpoint_by_algorithm_witness :
  let s := trained "acer" false 19 in
  let g := st_globals s in
  reachable (Hext := example_helpers) s /\
  ALGO g = algo_name acer /\
  save_step g = true /\
  improved world_improving g = true /\
  locals_with_model !! "model" = Some (PyObj 1) /\
  has_save_method world_improving (PyObj 1) = true /\
  List.filter is_save
    (new_events s (snd (callback (Hext := example_helpers)
                                 world_improving locals_with_model ∅ s)))
  = [EvSave (PyObj 1) (LOG_DIR g +:+ "acer_model.pkl")].
Proof.
  cbv zeta.
  assert (Ha : ALGO (st_globals (trained "acer" false 19)) = algo_name acer)
    by (vm_compute; reflexivity).
  assert (Hstep : save_step (st_globals (trained "acer" false 19)) = true)
    by (vm_compute; reflexivity).
  assert (Himp : improved world_improving
                   (st_globals (trained "acer" false 19)) = true)
    by (vm_compute; reflexivity).
  assert (Hlook : locals_with_model !! "model" = Some (PyObj 1))
    by (vm_compute; reflexivity).
  assert (Hsave : has_save_method world_improving (PyObj 1) = true)
    by reflexivity.
  split; [apply trained_reachable|].
  split; [exact Ha|]. split; [exact Hstep|]. split; [exact Himp|].
  split; [exact Hlook|]. split; [exact Hsave|].
  generalize (callback_checkpoint_by_algorithm (Hext := example_helpers)
                world_improving locals_with_model ∅
                (trained "acer" false 19) acer (trained_reachable _ _ _)
                Ha Hstep Himp (PyObj 1) Hlook).
  rewrite Hsave. exact (fun H => H).
Defined.

(** C2 fails as stated: with random_search selected, at a save step with a
    strictly greater mean reward and a model in [_locals], the call returns
    without any [.save()] call. *)
Lemma no_checkpoint_for_random_search :
  let s := trained "random_search" false 499 in
  let g := st_globals s in
  let r := callback (Hext := example_helpers)
                    world_improving locals_with_model ∅ s in
  ALGO g = algo_name random_search /\
  save_step g = true /\
  improved world_improving g = true /\
  locals_with_model !! "model" = Some (PyObj 1) /\
  fst r = Returns false /\
  List.filter is_save (new_events s (snd r)) = [].
Proof. vm_compute. repeat split. Qed.

(** C3 at the twentieth call of an acer run while the log holds no
    episode. *)
Lemma callback_keeps_best_when_insufficient_witness :
  let s := trained "acer" false 19 in
  let g := st_globals s in
  let r := callback (Hext := example_helpers)
                    world_no_episode locals_with_model ∅ s in
  reachable (Hext := example_helpers) s /\
  save_step g = true /\
  fst (computeMeanReward world_no_episode (LOG_DIR g) (N_EPISODES_EVAL g))
    = false /\
  (List.filter is_save (new_events s (snd r)) = [] /\
   best_mean_reward (st_globals (snd r)) = best_mean_reward g /\
   fst r = Returns false /\
   n_steps (st_globals (snd r)) = n_steps g + 1 /\
   SAVE_INTERVAL (st_globals (snd r)) = SAVE_INTERVAL g).
Proof.
  split; [apply trained_reachable|].
  split; [vm_compute; reflexivity|].
  split; [vm_compute; reflexivity|].
  apply (callback_keeps_best_when_insufficient (Hext := example_helpers)
           world_no_episode locals_with_model ∅ (trained "acer" false 19)
           (trained_reachable _ _ _)).
  - vm_compute; reflexivity.
  - right. vm_compute; reflexivity.
Defined.

(** C4 on a command line for acer with the autoencoder model. *)
Lemma configure_log_folder_witness :
  let args := example_args "acer" "autoencoder" false in
  let c := example_cmdline "acer" "autoencoder" false in
  let d := "/tmp/gym/autoencoder/acer/04-11-26_10h00_00/" in
  let r := configureEnvAndLogFolder (Hext := example_helpers) args (now c)
             (mkState (set_ALGO "acer" initial_globals) ∅ []) in
  let s' := snd (main (Hext := example_helpers) c imported) in
  srl_supported (Hext := example_helpers) args = true /\
  algo (parse_known_args c) = algo_name acer /\
  fst r = Returns (set_log_dir d args) /\
  LOG_DIR (st_globals (snd r)) = d /\
  new_events (mkState (set_ALGO "acer" initial_globals) ∅ []) (snd r)
    = [EvMakedirs d] /\
  LOG_DIR (st_globals s') = d /\
  exists before after,
    new_events imported s' =
      (before ++
       [EvMakedirs d;
        EvJsonDump "/tmp/gym/autoencoder/acer/04-11-26_10h00_00/args.json"
                   (keep_json_safe (vars (set_log_dir d args)))] ++
       after)%list.
Proof.
  intros args c d r s'.
  destruct (configure_log_folder (Hext := example_helpers)) as (H1 & H2 & _).
  split; [vm_compute; reflexivity|].
  split; [vm_compute; reflexivity|].
  assert (Hsrl : srl_supported (Hext := example_helpers) args = true)
    by (vm_compute; reflexivity).
  destruct (H1 args (now c) (mkState (set_ALGO "acer" initial_globals) ∅ [])
              Hsrl) as (Ha & Hb & Hc).
  destruct (H2 c imported acer eq_refl Hsrl) as [Hd He].
  repeat split; assumption.
Defined.

(** C4 fails as stated: the table has no entry for [supervised], and
    [configureEnvAndLogFolder] raises instead of returning [args]; [LOG_DIR]
    keeps its value and no directory is created. *)
Lemma configure_raises_for_unsupported_model :
  let args := example_args "deepq" "supervised" false in
  let s := mkState (set_ALGO "deepq" initial_globals) ∅ [] in
  let r := configureEnvAndLogFolder (Hext := example_helpers) args
             "04-11-26_10h00_00" s in
  fst r = Raises (ValueError "Unsupported value for srl-model: supervised") /\
  LOG_DIR (st_globals (snd r)) = "" /\
  st_trace (snd r) = [].
Proof. vm_compute. repeat split. Qed.

(** C5 at the hundredth call of a deepq run, and on a run with [--no-vis]. *)
Lemma callback_plots_when_enabled_witness :
  let s := trained "deepq" false 99 in
  let g := st_globals s in
  let quiet := example_cmdline "acer" "" true in
  let calls := repeat (call_improving locals_with_model) 40 in
  reachable (Hext := example_helpers) s /\
  no_vis (parse_known_args quiet) = true /\
  List.filter is_plot
    (new_events s (snd (callback (Hext := example_helpers)
                                 world_improving locals_with_model ∅ s)))
  = plot_refreshes g /\
  List.filter is_visualization
    (new_events imported
       (run_callbacks (Hext := example_helpers) calls
          (snd (main (Hext := example_helpers) quiet imported)))) = [].
Proof.
  intros s g quiet calls.
  destruct (callback_plots_when_enabled (Hext := example_helpers))
    as [H1 H2].
  split; [apply trained_reachable|].
  split; [reflexivity|].
  split.
  - rewrite (H1 world_improving locals_with_model ∅ s
               (trained_reachable _ _ _)).
    vm_compute. reflexivity.
  - apply (H2 quiet imported calls). reflexivity.
Defined.

(** C5 fails as stated: at the twentieth call of an acer run visualization
    is enabled and the step is a multiple of [LOG_INTERVAL], but the
    checkpoint raises [KeyError] and no plot is refreshed. *)
Lemma no_plot_after_missing_model :
  let s := trained "acer" false 19 in
  let g := st_globals s in
  let r := callback (Hext := example_helpers)
                    world_improving locals_without_model ∅ s in
  truthy (viz g) = true /\
  log_step g = true /\
  fst r = Raises (KeyError "model") /\
  List.filter is_plot (new_events s (snd r)) = [].
Proof. vm_compute. repeat split. Qed.

(** C7 on a command line for ppo2 with the ground truth. *)
Lemma main_delegates_last_witness :
  let c := example_cmdline "ppo2" "ground_truth" false in
  let s' := snd (main (Hext := example_helpers) c imported) in
  let evs := new_events imported s' in
  let d := derived_log_dir (parse_args c) (algo_name ppo2) (now c) in
  let args := set_log_dir d (parse_args c) in
  let c' := example_cmdline "a2c" "supervised" false in
  let evs' := new_events imported
                (snd (main (Hext := example_helpers) c' imported)) in
  algo (parse_known_args c) = algo_name ppo2 /\
  srl_supported (Hext := example_helpers) (parse_args c) = true /\
  fst (main (Hext := example_helpers) c imported) = Returns tt /\
  List.filter is_algo_main evs = [EvAlgoMain ppo2 args] /\
  last evs = Some (EvAlgoMain ppo2 args) /\
  algo (parse_known_args c') = algo_name a2c /\
  srl_supported (Hext := example_helpers) (parse_args c') = false /\
  List.filter is_algo_main evs' = [] /\
  (forall p, List.filter (writes_file p) evs' = []).
Proof.
  cbv zeta.
  assert (H0 : srl_supported (Hext := example_helpers)
                 (parse_args (example_cmdline "ppo2" "ground_truth" false))
               = true) by (vm_compute; reflexivity).
  assert (H0' : srl_supported (Hext := example_helpers)
                  (parse_args (example_cmdline "a2c" "supervised" false))
                = false) by (vm_compute; reflexivity).
  destruct (main_delegates_last (Hext := example_helpers)
              (example_cmdline "ppo2" "ground_truth" false) imported ppo2
              eq_refl) as [Hok _].
  destruct (Hok H0) as (H1 & _ & H3 & H4 & _).
  destruct (main_delegates_last (Hext := example_helpers)
              (example_cmdline "a2c" "supervised" false) imported a2c
              eq_refl) as [_ Hko].
  destruct (Hko H0') as (_ & _ & H7 & H8).
  split; [reflexivity|]. split; [exact H0|]. split; [exact H1|].
  split; [exact H3|]. split; [exact H4|]. split; [reflexivity|].
  split; [exact H0'|]. split; [exact H7 | exact H8].
Defined.

(** C7 fails as stated: argparse accepts [--srl-model supervised], the
    table has no entry for it, and [main] raises before it saves anything
    or calls the algorithm. *)
Lemma main_raises_for_unsupported_model :
  let c := example_cmdline "deepq" "supervised" false in
  let r := main (Hext := example_helpers) c imported in
  algo (parse_known_args c) = algo_name deepq /\
  fst r = Raises (ValueError "Unsupported value for srl-model: supervised") /\
  List.filter is_algo_main (new_events imported (snd r)) = [] /\
  List.filter (fun e => match e with EvJsonDump _ _ => true | _ => false end)
              (new_events imported (snd r)) = [].
Proof. vm_compute. repeat split. Qed.

(** C8 along an acer run in which the mean reward improves. *)
Lemma best_mean_reward_never_decreases_witness :
  let s := trained "acer" false 19 in
  let best := best_mean_reward (st_globals s) in
  let calls := repeat (call_improving locals_with_model) 40 in
  reachable (Hext := example_helpers) s /\
  py_ge best neg_10000 = true /\
  py_ge (best_mean_reward
           (st_globals (run_callbacks (Hext := example_helpers) calls s)))
        best = true.
Proof.
  intros s best calls.
  destruct (best_mean_reward_never_decreases (Hext := example_helpers) s
              (trained_reachable _ _ _)) as (H1 & _ & H3).
  split; [apply trained_reachable|]. split; [exact H1 | apply H3].
Defined.

(** C9 on a deepq run: the first call writes the file, the next fifty do
    not. *)
Lemma rl_locals_written_once_witness :
  let s := snd (main (Hext := example_helpers)
                     (example_cmdline "deepq" "" false) imported) in
  let path := "/tmp/gym/raw_pixels/deepq/04-11-26_10h00_00/rl_locals.json" in
  let first := call_improving locals_with_model in
  let rest := repeat (call_no_episode locals_without_model) 50 in
  let s1 := invoke (Hext := example_helpers) first s in
  params_saved (st_globals s) = false /\
  List.filter (writes_file path) (new_events s s1) =
    [EvJsonDump path (keep_json_safe locals_with_model)] /\
  params_saved (st_globals s1) = true /\
  List.filter (writes_file path)
    (new_events s1 (run_callbacks (Hext := example_helpers) rest s1)) = [].
Proof.
  intros s path first rest s1.
  destruct (rl_locals_written_once (Hext := example_helpers))
    as (H1 & H2 & _).
  split; [apply H1|].
  apply (H2 s first rest (H1 _ _)).
Defined.

(** C10 at the twentieth call of an acer run.  With the model in
    [_locals] the call reads the log, saves the model, refreshes the plots,
    returns [False] and counts; with a number under ['model'] the call
    raises [AttributeError] and [n_steps] stays at 19. *)
Lemma callback_returns_false_and_counts_witness :
  let s := trained "acer" false 19 in
  let r := callback (Hext := example_helpers)
                    world_improving locals_with_model ∅ s in
  let r' := callback (Hext := example_helpers)
                     world_improving locals_without_save ∅ s in
  reachable (Hext := example_helpers) s /\
  save_step (st_globals s) = true /\
  improved world_improving (st_globals s) = true /\
  log_step (st_globals s) = true /\
  checkpoint_error world_improving locals_with_model (st_globals s)
    = None /\
  checkpoint_error world_improving locals_without_save (st_globals s)
    = Some (AttributeError "save") /\
  (fst r = Returns false /\
   n_steps (st_globals (snd r)) = n_steps (st_globals s) + 1) /\
  (fst r' = Raises (AttributeError "save") /\
   n_steps (st_globals (snd r')) = n_steps (st_globals s)).
Proof.
  cbv zeta. split; [apply trained_reachable|].
  split; [vm_compute; reflexivity|]. split; [vm_compute; reflexivity|].
  split; [vm_compute; reflexivity|].
  assert (E : checkpoint_error world_improving locals_with_model
                (st_globals (trained "acer" false 19)) = None)
    by (vm_compute; reflexivity).
  assert (E' : checkpoint_error world_improving locals_without_save
                 (st_globals (trained "acer" false 19))
               = Some (AttributeError "save"))
    by (vm_compute; reflexivity).
  split; [exact E|]. split; [exact E'|]. split.
  - generalize (callback_returns_false_and_counts (Hext := example_helpers)
                  world_improving locals_with_model ∅
                  (trained "acer" false 19) (trained_reachable _ _ _)).
    cbv zeta. rewrite E. exact (fun H => H).
  - generalize (callback_returns_false_and_counts (Hext := example_helpers)
                  world_improving locals_without_save ∅
                  (trained "acer" false 19) (trained_reachable _ _ _)).
    cbv zeta. rewrite E'. exact (fun H => H).
Defined.

(** C10 fails as stated: at the 500th call of a deepq run whose [_locals]
    has no [act], the call raises [KeyError] instead of returning [False],
    and [n_steps] stays at 499. *)
Lemma callback_raises_without_model :
  let s := trained "deepq" false 499 in
  let r := callback (Hext := example_helpers)
                    world_improving locals_without_model ∅ s in
  fst r = Raises (KeyError "act") /\
  n_steps (st_globals s) = 499 /\
  n_steps (st_globals (snd r)) = 499.
Proof. vm_compute. repeat split. Qed.

(** The other way the checkpoint raises: at the twentieth call of an acer
    run whose [_locals['model']] is a number, the call stores the new best
    mean reward and raises [AttributeError]; nothing is saved or plotted,
    and [n_steps] stays at 19. *)
Lemma callback_raises_without_save :
  let s := trained "acer" false 19 in
  let r := callback (Hext := example_helpers)
                    world_improving locals_without_save ∅ s in
  let evs := new_events s (snd r) in
  fst r = Raises (AttributeError "save") /\
  best_mean_reward (st_globals (snd r))
    = last_mean_reward world_improving (st_globals s) /\
  List.filter is_reward_read evs <> [] /\
  List.filter is_save evs = [] /\
  List.filter is_plot evs = [] /\
  n_steps (st_globals s) = 19 /\
  n_steps (st_globals (snd r)) = 19.
Proof. vm_compute. repeat split. discriminate. Qed.

(** * Further properties of the module *)

Section Coverage.

Context `{Hext : helpers}.

(** The calls of [callback] in order, and the globals it leaves alone or
    sets, when neither interval is zero. *)
Lemma callback_exact w l gl s :
  SAVE_INTERVAL (st_globals s) <> 0 -> LOG_INTERVAL (st_globals s) <> 0 ->
  let g := st_globals s in
  let s' := snd (callback w l gl s) in
  let g' := st_globals s' in
  new_events s s' =
    (connect_events g ++ params_events l g ++ evaluation_events w l g ++
     plot_events w l g)%list /\
  (VISDOM_PORT g' = VISDOM_PORT g /\ ENV_NAME g' = ENV_NAME g /\
   PLOT_TITLE g' = PLOT_TITLE g /\ EPISODE_WINDOW g' = EPISODE_WINDOW g /\
   N_EPISODES_EVAL g' = N_EPISODES_EVAL g) /\
  win g' =
    (if plots_now w l g
     then visdom_plot w (viz_client g) (win g) (LOG_DIR g) (ENV_NAME g)
                      (ALGO g) (Some 1) (Some 0) (PLOT_TITLE g)
     else win g) /\
  win_smooth g' =
    (if plots_now w l g
     then visdom_plot w (viz_client g) (win_smooth g) (LOG_DIR g)
                      (ENV_NAME g) (ALGO g) None None
                      (PLOT_TITLE g +:+ " smoothed")
     else win_smooth g) /\
  win_episodes g' =
    (if plots_now w l g
     then episode_plot w (viz_client g) (win_episodes g) (LOG_DIR g)
                       (ENV_NAME g) (ALGO g) (EPISODE_WINDOW g)
                       (PLOT_TITLE g +:+ " [Episodes]")
     else win_episodes g).
Proof.
  intros HS HL. apply Z.eqb_neq in HS, HL. open_state s.
  start_run (callback w l gl). run_more. finish_run; run_more.
  all: rewrite <- ?app_assoc; rewrite ?drop_app_length; rewrite ?drop_all;
    cbn [app]; repeat split; try congruence.
  all: subst_algo; reflexivity.
Qed.

(** What [configureEnvAndLogFolder] does to the [kuka_env] module and to
    the title of the plots, whatever its outcome. *)
Lemma configure_effects args stamp s :
  let g := st_globals s in
  let r := configureEnvAndLogFolder args stamp s in
  let g' := st_globals (snd r) in
  (srl_supported args = true ->
   st_kuka_env (snd r) = configured_kuka_env args (st_kuka_env s) /\
   PLOT_TITLE g' = configured_plot_title args (PLOT_TITLE g)) /\
  (srl_model args <> "" -> srl_model args <> "ground_truth" ->
   is_Some (models !! srl_model args) -> models !! "log_folder" = None ->
   fst r = Raises (KeyError "log_folder") /\
   st_kuka_env (snd r) = <["USE_SRL" := PyBool true]> (st_kuka_env s) /\
   PLOT_TITLE g' = srl_model args /\
   LOG_DIR g' = LOG_DIR g /\
   new_events s (snd r) = []) /\
  (ALGO g' = ALGO g /\ ENV_NAME g' = ENV_NAME g /\
   VISDOM_PORT g' = VISDOM_PORT g /\ viz g' = viz g /\
   n_steps g' = n_steps g /\ SAVE_INTERVAL g' = SAVE_INTERVAL g /\
   LOG_INTERVAL g' = LOG_INTERVAL g /\
   params_saved g' = params_saved g /\
   best_mean_reward g' = best_mean_reward g).
Proof.
  open_state s.
  start_run (configureEnvAndLogFolder args stamp). run_more.
  finish_run; run_more; events_done.
  all: split; [|split]; [| |repeat split];
    try (intros H; try discriminate H; split; reflexivity).
  all: try (intros H1 H2 [p Hp] H4; apply String.eqb_neq in H1, H2;
            congruence).
  all: intros H1 H2 [p' Hp] H4; repeat split; reflexivity.
Qed.

(** [main] leaves the two constants of the evaluation and of the plots
    alone. *)
Lemma main_constants c s :
  EPISODE_WINDOW (st_globals (snd (main c s))) = EPISODE_WINDOW (st_globals s)
  /\ N_EPISODES_EVAL (st_globals (snd (main c s)))
     = N_EPISODES_EVAL (st_globals s).
Proof.
  open_state s. run_on (main c); split; reflexivity.
Qed.

(** A reward that is [>=] some reward is a number, numbers are comparable,
    and no reward is greater than a NaN or lower than one. *)
Lemma py_ge_is_number (a b : reward) : py_ge a b = true -> is_number a = true.
Proof. unfold py_ge, SFleb, SFcompare. by destruct b, a. Qed.

Lemma py_gt_nan (a : reward) : py_gt S754_nan a = false.
Proof. unfold py_gt, SFltb, SFcompare. by destruct a. Qed.

Lemma py_ge_total (a b : reward) :
  is_number a = true -> is_number b = true ->
  py_gt a b = false -> py_ge b a = true.
Proof.
  unfold py_ge, py_gt, SFleb, SFltb, SFcompare.
  destruct a as [[]|[]| |[] ma ea], b as [[]|[]| |[] mb eb]; simpl;
    intros Ha Hb H; try discriminate; try reflexivity; solve_cmp.
Qed.

Lemma py_ge_refl (a : reward) : is_number a = true -> py_ge a a = true.
Proof.
  unfold py_ge, SFleb, SFcompare.
  destruct a as [[]|[]| |[] ma ea]; simpl; intros H;
    try discriminate; try reflexivity;
    by rewrite Z.compare_refl, compare_cont_Eq, Pos.compare_refl.
Qed.

(** The calls of the statements other than the connection are no Visdom
    connections, and every file a call writes is one of two. *)
Lemma no_visdom_after_connect w l g :
  List.filter is_visdom
    (params_events l g ++ evaluation_events w l g ++ plot_events w l g) = [].
Proof.
  rewrite !List.filter_app.
  unfold params_events, evaluation_events, plot_events, plot_refreshes,
    checkpoint_saves.
  repeat case_cond; reflexivity.
Qed.

Lemma call_events_write w l g e p :
  In e (connect_events g ++ params_events l g ++ evaluation_events w l g ++
        plot_events w l g) ->
  writes_file p e = true ->
  p = LOG_DIR g +:+ "rl_locals.json" \/
  p = LOG_DIR g +:+ ALGO g +:+ "_model.pkl".
Proof.
  unfold connect_events, params_events, evaluation_events, plot_events,
    plot_refreshes, checkpoint_saves.
  rewrite !in_app_iff.
  repeat case_cond; intros Hin Hw; cbn [In app] in Hin;
    repeat match goal with H : _ \/ _ |- _ => destruct H end;
    try contradiction; subst e; cbn [writes_file] in Hw;
    try discriminate; apply String.eqb_eq in Hw; auto.
Qed.

(** With its model in [_locals] the checkpoint cannot raise. *)
Lemma holds_model_no_error g i :
  holds_model (ALGO g) i ->
  checkpoint_error (inv_world i) (inv_locals i) g = None.
Proof.
  unfold holds_model, checkpoint_error.
  destruct (save_step g && improved (inv_world i) g); [|reflexivity].
  destruct (model_key (ALGO g)); [|reflexivity].
  intros (v & Hv & Hsave). by rewrite Hv, Hsave.
Qed.

(** [main] stores the algorithm of the command line, whatever its
    outcome. *)
Lemma main_sets_algo c s :
  ALGO (st_globals (snd (main c s))) = algo (parse_known_args c).
Proof.
  open_state s. run_on (main c); reflexivity.
Qed.

(** When every call finds its model in [_locals], every call of a run
    returns [False], [n_steps] counts the calls, and visualization stays on
    or off. *)
Lemma run_counts invs s :
  reachable s ->
  Forall (holds_model (ALGO (st_globals s))) invs ->
  run_outcomes invs s = repeat (Returns false) (length invs) /\
  n_steps (st_globals (run_callbacks invs s)) =
    n_steps (st_globals s) + Z.of_nat (length invs) /\
  viz_enabled (st_globals (run_callbacks invs s)) =
    viz_enabled (st_globals s).
Proof.
  revert s. induction invs as [|i invs IH]; intros s Hs Hm.
  - simpl. repeat split; try reflexivity; lia.
  - apply Forall_cons in Hm as [Hi Hm].
    destruct (reachable_intervals s Hs) as [HS HL].
    destruct (callback_summary (inv_world i) (inv_locals i) (inv_globals i)
                s HS HL) as (_ & _ & _ & _ & Hn).
    destruct (callback_frame (inv_world i) (inv_locals i) (inv_globals i) s)
      as (_ & _ & Ha & _ & _ & _ & Hv & _).
    rewrite (holds_model_no_error _ _ Hi) in Hn. destruct Hn as [Ho Hn].
    fold (invoke i s) in Hn, Hv, Ha. rewrite <- Ha in Hm.
    destruct (IH (invoke i s) (reach_callback _ _ _ _ Hs) Hm)
      as (I1 & I2 & I3).
    cbn [run_outcomes run_callbacks length repeat]. repeat split.
    + by rewrite Ho, I1.
    + rewrite I2, Hn. lia.
    + rewrite I3. unfold viz_enabled. rewrite Hv. unfold viz_client.
      by destruct (viz (st_globals s)) as [| [] | | | | |].
Qed.

Lemma run_preserves_interval invs s :
  SAVE_INTERVAL (st_globals (run_callbacks invs s))
    = SAVE_INTERVAL (st_globals s) /\
  LOG_INTERVAL (st_globals (run_callbacks invs s))
    = LOG_INTERVAL (st_globals s).
Proof.
  revert s. induction invs as [|i invs IH]; intros s; simpl.
  - split; reflexivity.
  - destruct (IH (invoke i s)) as [I1 I2].
    destruct (callback_frame (inv_world i) (inv_locals i) (inv_globals i) s)
      as (_ & _ & _ & H1 & H2 & _).
    fold (invoke i s) in H1, H2. split; congruence.
Qed.

Lemma run_preserves_algo invs s :
  ALGO (st_globals (run_callbacks invs s)) = ALGO (st_globals s).
Proof.
  revert s. induction invs as [|i invs IH]; intros s; simpl; [reflexivity|].
  rewrite IH.
  by destruct (callback_frame (inv_world i) (inv_locals i) (inv_globals i) s)
    as (_ & _ & Ha & _).
Qed.

(** X1.  The calls of one invocation of [callback] by a process, in order:
    the Visdom connection when [viz] is [None]; the dump of the filtered
    [_locals] when the parameters are not saved yet; at a save step the
    read of the reward log, the printed line when the read is ok and the
    checkpoint when the reward improved; then the three plot refreshes when
    they are due.  A checkpoint that raises ([KeyError], [AttributeError])
    saves nothing and ends the call before the plots.  The call makes no
    other call. *)
Theorem callback_calls_in_order w l gl s :
  reachable s ->
  let g := st_globals s in
  new_events s (snd (callback w l gl s)) =
    (connect_events g ++ params_events l g ++ evaluation_events w l g ++
     plot_events w l g)%list.
Proof.
  intros Hs. destruct (reachable_intervals s Hs) as [HS HL].
  by destruct (callback_exact w l gl s HS HL) as [H _].
Qed.

(** X2.  In every state of a process: [SAVE_INTERVAL] is 500 or 20 and
    [LOG_INTERVAL] is 100, 1 or 10 (so no modulo of [callback] divides by
    zero); [n_steps] is not negative; [viz] is [None], [False] or a Visdom
    client; the best mean reward is not a NaN; and the evaluation reads the
    last 50 episodes and the episode plot uses a window of 40. *)
Theorem process_invariants s :
  reachable s ->
  let g := st_globals s in
  (SAVE_INTERVAL g = 500 \/ SAVE_INTERVAL g = 20) /\
  (LOG_INTERVAL g = 100 \/ LOG_INTERVAL g = 1 \/ LOG_INTERVAL g = 10) /\
  0 <= n_steps g /\
  viz_well_formed (viz g) = true /\
  is_number (best_mean_reward g) = true /\
  N_EPISODES_EVAL g = 50 /\ EPISODE_WINDOW g = 40.
Proof.
  intros Hs.
  destruct (reachable_invariant s Hs) as (HS & HL & HB).
  cbn zeta. split; [exact HS|]. split; [exact HL|].
  assert (Hnum := py_ge_is_number _ _ HB).
  induction Hs as [kenv | c s Hs IH | w l gl s Hs IH].
  - repeat split; auto. cbn. lia.
  - destruct (reachable_invariant s Hs) as (HS0 & HL0 & HB0).
    destruct (main_frame c s) as (_ & Hb & Hn & _ & _ & Hv & _).
    destruct (main_constants c s) as [He Hw].
    destruct (IH HS0 HL0 HB0 (py_ge_is_number _ _ HB0))
      as (IH1 & IH2 & _ & IH4 & IH5).
    rewrite Hn, Hv, He, Hw. repeat split; auto.
    by destruct (no_vis (parse_known_args c)).
  - destruct (reachable_invariant s Hs) as (HS0 & HL0 & HB0).
    destruct (reachable_intervals s Hs) as [HS1 HL1].
    destruct (IH HS0 HL0 HB0 (py_ge_is_number _ _ HB0))
      as (IH1 & IH2 & _ & IH4 & IH5).
    destruct (callback_frame w l gl s)
      as (_ & _ & _ & _ & _ & _ & Hv & _).
    destruct (callback_summary w l gl s HS1 HL1) as (_ & _ & _ & _ & Hn).
    destruct (callback_exact w l gl s HS1 HL1)
      as (_ & (_ & _ & _ & He & Hw) & _).
    rewrite Hv, He, Hw. repeat split; auto.
    + destruct (checkpoint_error w l (st_globals s));
        destruct Hn as [_ ->]; lia.
    + unfold viz_client. by destruct (viz (st_globals s)) as [| [] | | | | |].
Qed.

(** X3.  Along any run of calls of a process, [callback] connects to Visdom
    at most once: in its first call, on [VISDOM_PORT], when [viz] is
    [None]; never when [viz] is already set. *)
Theorem visdom_connected_at_most_once invs s :
  reachable s ->
  let g := st_globals s in
  List.filter is_visdom (new_events s (run_callbacks invs s)) =
    match invs with
    | [] => []
    | _ :: _ => if is_None (viz g) then [EvVisdom (VISDOM_PORT g)] else []
    end.
Proof.
  intros Hs. cbn zeta.
  assert (Hset : forall invs s, reachable s ->
            is_None (viz (st_globals s)) = false ->
            List.filter is_visdom (new_events s (run_callbacks invs s)) = []).
  { clear invs s Hs. induction invs as [|i invs IH]; intros s Hs Hv; simpl.
    - unfold new_events. by rewrite drop_all.
    - destruct (reachable_intervals s Hs) as [HS HL].
      destruct (callback_exact (inv_world i) (inv_locals i) (inv_globals i)
                  s HS HL) as [Hev _].
      destruct (callback_frame (inv_world i) (inv_locals i) (inv_globals i) s)
        as (_ & _ & _ & _ & _ & _ & Hviz & _ & Hext1 & _).
      fold (invoke i s) in Hev, Hviz, Hext1.
      destruct (run_callbacks_frame invs (invoke i s)) as [_ Hext2].
      destruct (extends_trans _ _ _ Hext1 Hext2) as [_ ->].
      apply filter_nil_app.
      + rewrite Hev, List.filter_app, no_visdom_after_connect, app_nil_r.
        unfold connect_events. by rewrite Hv.
      + apply IH; [by apply reach_callback|].
        rewrite Hviz. unfold viz_client. by rewrite Hv. }
  destruct invs as [|i invs]; simpl.
  - unfold new_events. by rewrite drop_all.
  - destruct (reachable_intervals s Hs) as [HS HL].
    destruct (callback_exact (inv_world i) (inv_locals i) (inv_globals i)
                s HS HL) as [Hev _].
    destruct (callback_frame (inv_world i) (inv_locals i) (inv_globals i) s)
      as (_ & _ & _ & _ & _ & _ & Hviz & _ & Hext1 & _).
    fold (invoke i s) in Hev, Hviz, Hext1.
    destruct (run_callbacks_frame invs (invoke i s)) as [_ Hext2].
    destruct (extends_trans _ _ _ Hext1 Hext2) as [_ ->].
    rewrite List.filter_app, Hev, List.filter_app, no_visdom_after_connect,
      app_nil_r.
    rewrite (Hset invs (invoke i s)).
    + rewrite app_nil_r. unfold connect_events.
      by destruct (is_None (viz (st_globals s))).
    + by apply reach_callback.
    + rewrite Hviz. unfold viz_client.
      by destruct (viz (st_globals s)) as [| [] | | | | |].
Qed.

(** X4.  No run of calls of [callback] changes the configuration of the
    process: the log folder, the algorithm and environment names, the title
    of the plots, the Visdom port, the two intervals and the attributes of
    the [kuka_env] module stay as [main] left them. *)
Theorem run_preserves_configuration invs s :
  reachable s ->
  let g := st_globals s in
  let s' := run_callbacks invs s in
  let g' := st_globals s' in
  LOG_DIR g' = LOG_DIR g /\ ALGO g' = ALGO g /\ ENV_NAME g' = ENV_NAME g /\
  PLOT_TITLE g' = PLOT_TITLE g /\ VISDOM_PORT g' = VISDOM_PORT g /\
  SAVE_INTERVAL g' = SAVE_INTERVAL g /\ LOG_INTERVAL g' = LOG_INTERVAL g /\
  st_kuka_env s' = st_kuka_env s.
Proof.
  revert s. induction invs as [|i invs IH]; intros s Hs; simpl.
  - repeat split.
  - destruct (reachable_intervals s Hs) as [HS HL].
    destruct (callback_exact (inv_world i) (inv_locals i) (inv_globals i)
                s HS HL) as (_ & (H1 & H2 & H3 & _) & _).
    destruct (callback_frame (inv_world i) (inv_locals i) (inv_globals i) s)
      as (H4 & H5 & H6 & H7 & H8 & _).
    fold (invoke i s) in H1, H2, H3, H4, H5, H6, H7, H8.
    destruct (IH (invoke i s) (reach_callback _ _ _ _ Hs))
      as (I1 & I2 & I3 & I4 & I5 & I6 & I7 & I8).
    cbn zeta in *. repeat split; congruence.
Qed.

(** X5.  When every call of a run finds its model in [_locals] (under the
    key of [ALGO], an object with a [save] method), every call returns
    [False] and [n_steps] counts the calls. *)
Theorem n_steps_counts_calls invs s :
  reachable s ->
  Forall (holds_model (ALGO (st_globals s))) invs ->
  run_outcomes invs s = repeat (Returns false) (length invs) /\
  n_steps (st_globals (run_callbacks invs s)) =
    n_steps (st_globals s) + Z.of_nat (length invs).
Proof.
  intros Hs Hm. by destruct (run_counts invs s Hs Hm) as (H1 & H2 & _).
Qed.

(** X6.  What [configureEnvAndLogFolder] tells the environment.  Without an
    SRL model it leaves the [kuka_env] module and the title of the plots
    alone; for the ground truth it sets [USE_GROUND_TRUTH] and the title
    ["Ground Truth"]; for a model of the table it sets [USE_SRL], sets
    [SRL_MODEL_PATH] to the folder of the table followed by the path of the
    model, and takes the model name as title.  It sets no other attribute,
    and of the globals only [PLOT_TITLE] and [LOG_DIR]. *)
Theorem configure_sets_environment args stamp s :
  let g := st_globals s in
  let s' := snd (configureEnvAndLogFolder args stamp s) in
  let g' := st_globals s' in
  (srl_model args = "" ->
   st_kuka_env s' = st_kuka_env s /\ PLOT_TITLE g' = PLOT_TITLE g) /\
  (srl_model args = "ground_truth" ->
   st_kuka_env s' = <["USE_GROUND_TRUTH" := PyBool true]> (st_kuka_env s) /\
   PLOT_TITLE g' = "Ground Truth") /\
  (forall path folder,
     srl_model args <> "" -> srl_model args <> "ground_truth" ->
     models !! srl_model args = Some path ->
     models !! "log_folder" = Some folder ->
     st_kuka_env s' =
       <["SRL_MODEL_PATH" := PyStr (folder +:+ path)]>
         (<["USE_SRL" := PyBool true]> (st_kuka_env s)) /\
     PLOT_TITLE g' = srl_model args) /\
  (ALGO g' = ALGO g /\ ENV_NAME g' = ENV_NAME g /\
   VISDOM_PORT g' = VISDOM_PORT g /\ viz g' = viz g /\
   n_steps g' = n_steps g /\ SAVE_INTERVAL g' = SAVE_INTERVAL g /\
   LOG_INTERVAL g' = LOG_INTERVAL g /\
   params_saved g' = params_saved g /\
   best_mean_reward g' = best_mean_reward g).
Proof.
  destruct (configure_effects args stamp s) as (H1 & _ & H3).
  cbn zeta in *.
  split; [|split; [|split; [|exact H3]]].
  - intros E. unfold srl_supported, configured_kuka_env,
      configured_plot_title in H1.
    rewrite E in H1. cbn in H1. by apply H1.
  - intros E. unfold srl_supported, configured_kuka_env,
      configured_plot_title in H1.
    rewrite E in H1. cbn in H1. by apply H1.
  - intros path folder E1 E2 Hp Hf.
    apply String.eqb_neq in E1, E2.
    unfold srl_supported, configured_kuka_env, configured_plot_title in H1.
    rewrite E1, E2, Hp, Hf in H1. by apply H1.
Qed.

(** X7.  A table that lists the SRL model but not ["log_folder"]:
    [configureEnvAndLogFolder] raises [KeyError] for that key, after it has
    set [USE_SRL] and the title of the plots; [LOG_DIR] is not set and no
    directory is created. *)
Theorem configure_raises_without_log_folder args stamp s :
  srl_model args <> "" -> srl_model args <> "ground_truth" ->
  is_Some (models !! srl_model args) ->
  models !! "log_folder" = None ->
  let r := configureEnvAndLogFolder args stamp s in
  fst r = Raises (KeyError "log_folder") /\
  st_kuka_env (snd r) = <["USE_SRL" := PyBool true]> (st_kuka_env s) /\
  PLOT_TITLE (st_globals (snd r)) = srl_model args /\
  LOG_DIR (st_globals (snd r)) = LOG_DIR (st_globals s) /\
  new_events s (snd r) = [].
Proof.
  intros H1 H2 H3 H4.
  destruct (configure_effects args stamp s) as (_ & H & _).
  by apply H.
Qed.

(** X8.  For an algorithm argparse accepts, [main] returns exactly when the
    SRL model is supported.  Otherwise it raises [ValueError] (no entry in
    the table) or [KeyError] (no ["log_folder"] in the table), having only
    printed the agent and asked the algorithm for its flags: nothing is
    written, no seed is set, the algorithm is not called and [LOG_DIR] is
    not set, while [ALGO], [ENV_NAME] and [VISDOM_PORT] already hold the
    flags. *)
Theorem main_returns_iff_supported c s m :
  algo (parse_known_args c) = algo_name m ->
  let r := main c s in
  let g' := st_globals (snd r) in
  (fst r = Returns tt <-> srl_supported (parse_args c) = true) /\
  (srl_supported (parse_args c) = false ->
   fst r =
     Raises (match models !! srl_model (parse_args c) with
             | Some _ => KeyError "log_folder"
             | None => ValueError ("Unsupported value for srl-model: "
                                   +:+ srl_model (parse_args c))
             end) /\
   new_events s (snd r) =
     [EvPrintGreen (newline +:+ "Agent = " +:+ algo_name m +:+ " " +:+ newline);
      EvCustomArguments m] /\
   LOG_DIR g' = LOG_DIR (st_globals s) /\
   ALGO g' = algo_name m /\ ENV_NAME g' = env (parse_known_args c) /\
   VISDOM_PORT g' = port (parse_known_args c)).
Proof.
  intros Halgo.
  destruct (main_effects c s m Halgo) as ((Ha & He & Hp & _) & Hok & Hko).
  cbn zeta in *. split.
  - destruct (srl_supported (parse_args c)) eqn:E.
    + split; [reflexivity | intros _; by apply Hok].
    + destruct (Hko eq_refl) as (Hr & _). rewrite Hr.
      split; intros H; discriminate H.
  - intros E. destruct (Hko E) as (Hr & Hev & Hd). repeat split; assumption.
Qed.

(** X9.  The Visdom connection uses the port of the command line: in a
    process started by [main] without [--no-vis], the first call of
    [callback] connects to Visdom on the port given by [--port]. *)
Theorem visdom_uses_port_flag c kuka_env m w l gl :
  algo (parse_known_args c) = algo_name m ->
  no_vis (parse_known_args c) = false ->
  let s := snd (main c (mkState initial_globals kuka_env [])) in
  List.filter is_visdom (new_events s (snd (callback w l gl s))) =
    [EvVisdom (port (parse_known_args c))].
Proof.
  intros Halgo Hvis s.
  assert (Hs : reachable s) by apply reach_main, reach_import.
  destruct (reachable_intervals s Hs) as [HS HL].
  destruct (callback_exact w l gl s HS HL) as [Hev _].
  destruct (main_effects c (mkState initial_globals kuka_env []) m Halgo)
    as ((_ & _ & Hp & _) & _).
  destruct (main_frame c (mkState initial_globals kuka_env []))
    as (_ & _ & _ & _ & _ & Hv & _).
  fold s in Hp, Hv. rewrite Hvis in Hv. cbn in Hv.
  rewrite Hev, List.filter_app, no_visdom_after_connect, app_nil_r.
  unfold connect_events. by rewrite Hv, Hp.
Qed.

(** X10.  The window handles are threaded through the calls: a call that
    refreshes the plots stores what [visdom_plot] and [episode_plot]
    return in [win], [win_smooth] and [win_episodes], each function having
    been given the handle stored before; a call that does not refresh the
    plots (among them the call whose checkpoint raises [KeyError] or
    [AttributeError]) leaves the three handles alone. *)
Theorem plot_windows_threaded w l gl s :
  reachable s ->
  let g := st_globals s in
  let g' := st_globals (snd (callback w l gl s)) in
  (plots_now w l g = true ->
   win g' = visdom_plot w (viz_client g) (win g) (LOG_DIR g) (ENV_NAME g)
              (ALGO g) (Some 1) (Some 0) (PLOT_TITLE g) /\
   win_smooth g' = visdom_plot w (viz_client g) (win_smooth g) (LOG_DIR g)
                     (ENV_NAME g) (ALGO g) None None
                     (PLOT_TITLE g +:+ " smoothed") /\
   win_episodes g' = episode_plot w (viz_client g) (win_episodes g)
                       (LOG_DIR g) (ENV_NAME g) (ALGO g) (EPISODE_WINDOW g)
                       (PLOT_TITLE g +:+ " [Episodes]")) /\
  (plots_now w l g = false ->
   win g' = win g /\ win_smooth g' = win_smooth g /\
   win_episodes g' = win_episodes g).
Proof.
  intros Hs. destruct (reachable_intervals s Hs) as [HS HL].
  destruct (callback_exact w l gl s HS HL) as (_ & _ & H1 & H2 & H3).
  cbn zeta in *. split; intros E; rewrite E in H1, H2, H3; auto.
Qed.

(** X11.  A call of [callback] writes no file other than
    [LOG_DIR + "rl_locals.json"] and the checkpoint
    [LOG_DIR + ALGO + "_model.pkl"]. *)
Theorem callback_writes_under_log_dir w l gl s e p :
  reachable s ->
  let g := st_globals s in
  In e (new_events s (snd (callback w l gl s))) ->
  writes_file p e = true ->
  p = LOG_DIR g +:+ "rl_locals.json" \/
  p = LOG_DIR g +:+ ALGO g +:+ "_model.pkl".
Proof.
  intros Hs g. destruct (reachable_intervals s Hs) as [HS HL].
  destruct (callback_exact w l gl s HS HL) as [Hev _].
  rewrite Hev. apply call_events_write.
Qed.

(** X12.  A mean reward that is a NaN is ignored: at a save step where the
    log gives NaN the call saves nothing, keeps the best mean reward and
    returns [False]. *)
Theorem nan_reward_is_ignored w l gl s :
  reachable s ->
  let g := st_globals s in
  let r := callback w l gl s in
  save_step g = true ->
  computeMeanReward w (LOG_DIR g) (N_EPISODES_EVAL g) = (true, S754_nan) ->
  List.filter is_save (new_events s (snd r)) = [] /\
  best_mean_reward (st_globals (snd r)) = best_mean_reward g /\
  fst r = Returns false.
Proof.
  intros Hs g r Hstep Hnan. destruct (reachable_intervals s Hs) as [HS HL].
  assert (Himp : improved w g = false).
  { unfold improved, last_mean_reward. fold g. rewrite Hnan.
    apply py_gt_nan. }
  destruct (callback_summary w l gl s HS HL) as (_ & H2 & H3 & _ & H5).
  unfold checkpoint_error in H5. fold g r in H2, H3, H5.
  rewrite Hstep, Himp in *. cbn [andb] in *. destruct H5 as [H5 _].
  auto.
Qed.

(** X13.  The best mean reward bounds the evaluation just made: after a
    call at a save step, [best_mean_reward] is at least the mean reward of
    that step, whenever that mean reward is a number. *)
Theorem best_bounds_last_evaluation w l gl s :
  reachable s ->
  let g := st_globals s in
  save_step g = true ->
  is_number (last_mean_reward w g) = true ->
  py_ge (best_mean_reward (st_globals (snd (callback w l gl s))))
        (last_mean_reward w g) = true.
Proof.
  intros Hs g Hstep Hnum. destruct (reachable_intervals s Hs) as [HS HL].
  destruct (reachable_invariant s Hs) as (_ & _ & HB).
  destruct (callback_summary w l gl s HS HL) as (_ & H2 & _).
  fold g in H2. rewrite H2, Hstep. cbn [andb].
  destruct (improved w g) eqn:Himp.
  - by apply py_ge_refl.
  - apply py_ge_total; [exact Hnum | by apply (py_ge_is_number _ _ HB) |].
    exact Himp.
Qed.

(** X14.  What [main] tells the [kuka_env] module.  For an algorithm
    argparse accepts and a supported SRL model, [main] sets
    [ACTION_REPEAT] to [--action-repeat], and besides it only the
    attributes of the SRL model ([USE_GROUND_TRUTH], [USE_SRL],
    [SRL_MODEL_PATH]): every other attribute is as it was.  The dump of the
    environment parameters is made from the module so configured. *)
Theorem main_configures_kuka_env c s m :
  algo (parse_known_args c) = algo_name m ->
  srl_supported (parse_args c) = true ->
  let s' := snd (main c s) in
  st_kuka_env s' !! "ACTION_REPEAT"
    = Some (PyInt (action_repeat (parse_known_args c))) /\
  (forall attr,
     attr <> "ACTION_REPEAT" -> attr <> "USE_GROUND_TRUTH" ->
     attr <> "USE_SRL" -> attr <> "SRL_MODEL_PATH" ->
     st_kuka_env s' !! attr = st_kuka_env s !! attr) /\
  In (EvJsonDump (LOG_DIR (st_globals s') +:+ "kuka_env_globals.json")
                 (filterJSONSerializableObjects
                    (getGlobals (st_kuka_env s'))))
     (new_events s s').
Proof.
  intros Halgo Hsrl s'.
  destruct (main_effects c s m Halgo) as (_ & Hok & _).
  destruct (Hok Hsrl) as (_ & Hk & _).
  destruct (main_trace c s m Halgo Hsrl) as (_ & Htr & _ & _ & _ & Hd & _).
  fold s' in Hk, Htr, Hd.
  assert (Hlook : forall attr,
    attr <> "USE_GROUND_TRUTH" -> attr <> "USE_SRL" ->
    attr <> "SRL_MODEL_PATH" ->
    st_kuka_env s' !! attr =
    (<["ACTION_REPEAT" := PyInt (action_repeat (parse_known_args c))]>
       (st_kuka_env s)) !! attr).
  { intros attr N1 N2 N3. rewrite Hk. unfold configured_kuka_env.
    repeat case_cond; rewrite ?lookup_insert_ne by congruence; reflexivity. }
  split; [|split].
  - rewrite Hlook by discriminate. apply lookup_insert_eq.
  - intros attr N0 N1 N2 N3. rewrite Hlook by assumption.
    apply lookup_insert_ne. congruence.
  - rewrite Htr, Hd. cbn [In].
    do 8 right. left. reflexivity.
Qed.

(** X15.  The cadence of the callback.  In a process started by [main]
    whose training loop keeps its model in [_locals] (under the key of the
    selected algorithm, an object with a [save] method), the call number
    [k] (counted from 1) reads the reward log exactly when [SAVE_INTERVAL]
    divides [k], and refreshes the plots exactly when [--no-vis] was not
    given and [LOG_INTERVAL] divides [k]. *)
Theorem callback_cadence c kuka_env invs i :
  Forall (holds_model (algo (parse_known_args c))) invs ->
  holds_model (algo (parse_known_args c)) i ->
  let s0 := snd (main c (mkState initial_globals kuka_env [])) in
  let g0 := st_globals s0 in
  let s := run_callbacks invs s0 in
  let evs := new_events s (invoke i s) in
  let k := Z.of_nat (length invs) + 1 in
  (List.filter is_reward_read evs <> [] <-> (SAVE_INTERVAL g0 | k)) /\
  (List.filter is_plot evs <> [] <->
   no_vis (parse_known_args c) = false /\ (LOG_INTERVAL g0 | k)).
Proof.
  intros Hm Hi s0 g0 s evs k.
  assert (Hs0 : reachable s0) by apply reach_main, reach_import.
  assert (Hs : reachable s) by by apply reachable_run_callbacks.
  destruct (reachable_intervals s0 Hs0) as [HS0 HL0].
  destruct (reachable_intervals s Hs) as [HS HL].
  pose proof (main_sets_algo c (mkState initial_globals kuka_env [])) as Ha0.
  fold s0 in Ha0. rewrite <- Ha0 in Hm, Hi.
  destruct (run_counts invs s0 Hs0 Hm) as (_ & Hn & Hv).
  destruct (run_preserves_interval invs s0) as [HS1 HL1].
  pose proof (run_preserves_algo invs s0) as Ha. fold s in Ha.
  rewrite <- Ha in Hi.
  destruct (main_frame c (mkState initial_globals kuka_env []))
    as (_ & _ & Hn0 & _ & _ & Hv0 & _).
  fold s0 in Hn0, Hv0. fold s in Hn, Hv, HS1, HL1. cbn in Hn0, Hv0.
  destruct (callback_summary (inv_world i) (inv_locals i) (inv_globals i)
              s HS HL) as (Hread & _ & _ & Hplot & _).
  fold (invoke i s) in Hread, Hplot. fold evs in Hread, Hplot.
  rewrite (holds_model_no_error _ _ Hi) in Hplot.
  assert (Hk : n_steps (st_globals s) + 1 = k) by (unfold k; lia).
  unfold save_step in Hread. unfold log_step in Hplot.
  rewrite Hk, HS1 in Hread. rewrite Hk, HL1, Hv in Hplot.
  fold g0 in Hread, Hplot.
  rewrite Hread, Hplot.
  pose proof (Z.mod_divide k (SAVE_INTERVAL g0) HS0) as HdS.
  pose proof (Z.mod_divide k (LOG_INTERVAL g0) HL0) as HdL.
  split.
  - destruct (Z.eqb_spec (k mod SAVE_INTERVAL g0) 0) as [E | E];
      split; intros H; try congruence; [by apply HdS|].
    exfalso. apply E. by apply HdS.
  - unfold viz_enabled, g0, plot_refreshes. rewrite Hv0. fold g0.
    destruct (no_vis (parse_known_args c)); cbn;
      destruct (Z.eqb_spec (k mod LOG_INTERVAL g0) 0) as [E | E];
      split; intros H; try discriminate; try congruence;
      try (destruct H; congruence).
    + split; [reflexivity | by apply HdL].
    + exfalso. apply E. apply HdL. by destruct H.
Qed.

End Coverage.

(** ** The further properties on the example inputs *)

(** X1 at the twentieth call of an acer run. *)
Lemma callback_calls_in_order_witness :
  let s := trained "acer" false 19 in
  let g := st_globals s in
  reachable (Hext := example_helpers) s /\
  new_events s (snd (callback (Hext := example_helpers)
                              world_improving locals_with_model ∅ s)) =
    (connect_events g ++
     params_events (Hext := example_helpers) locals_with_model g ++
     evaluation_events world_improving locals_with_model g ++
     plot_events world_improving locals_with_model g)%list /\
  evaluation_events world_improving locals_with_model g =
    [EvComputeMeanReward "/tmp/gym/raw_pixels/acer/04-11-26_10h00_00/" 50;
     EvPrintRewards neg_10000 reward_one;
     EvSave (PyObj 1)
       "/tmp/gym/raw_pixels/acer/04-11-26_10h00_00/acer_model.pkl"].
Proof.
  split; [apply trained_reachable|]. split.
  - apply (callback_calls_in_order (Hext := example_helpers)
             world_improving locals_with_model ∅ (trained "acer" false 19)
             (trained_reachable _ _ _)).
  - vm_compute. reflexivity.
Defined.

(** X2 after twelve calls of a ppo2 run. *)
Lemma process_invariants_witness :
  let s := trained "ppo2" false 12 in
  let g := st_globals s in
  reachable (Hext := example_helpers) s /\
  (SAVE_INTERVAL g = 500 \/ SAVE_INTERVAL g = 20) /\
  (LOG_INTERVAL g = 100 \/ LOG_INTERVAL g = 1 \/ LOG_INTERVAL g = 10) /\
  0 <= n_steps g /\
  viz_well_formed (viz g) = true /\
  is_number (best_mean_reward g) = true /\
  N_EPISODES_EVAL g = 50 /\ EPISODE_WINDOW g = 40.
Proof.
  split; [apply trained_reachable|].
  apply (process_invariants (Hext := example_helpers)
           (trained "ppo2" false 12) (trained_reachable _ _ _)).
Defined.

(** X3 on thirty calls of a deepq run. *)
Lemma visdom_connected_at_most_once_witness :
  let s := trained "deepq" false 0 in
  let calls := repeat (call_improving locals_with_model) 30 in
  reachable (Hext := example_helpers) s /\
  List.filter is_visdom
    (new_events s (run_callbacks (Hext := example_helpers) calls s)) =
  [EvVisdom 8097].
Proof.
  split; [apply trained_reachable|].
  etransitivity.
  - apply (visdom_connected_at_most_once (Hext := example_helpers)
             (repeat (call_improving locals_with_model) 30)
             (trained "deepq" false 0) (trained_reachable _ _ _)).
  - vm_compute. reflexivity.
Defined.

(** X4 on thirty calls of an acer run. *)
Lemma run_preserves_configuration_witness :
  let s := trained "acer" false 0 in
  let g := st_globals s in
  let s' := run_callbacks (Hext := example_helpers)
              (repeat (call_improving locals_with_model) 30) s in
  let g' := st_globals s' in
  reachable (Hext := example_helpers) s /\
  LOG_DIR g' = LOG_DIR g /\ ALGO g' = ALGO g /\ ENV_NAME g' = ENV_NAME g /\
  PLOT_TITLE g' = PLOT_TITLE g /\ VISDOM_PORT g' = VISDOM_PORT g /\
  SAVE_INTERVAL g' = SAVE_INTERVAL g /\ LOG_INTERVAL g' = LOG_INTERVAL g /\
  st_kuka_env s' = st_kuka_env s.
Proof.
  split; [apply trained_reachable|].
  apply (run_preserves_configuration (Hext := example_helpers)
           (repeat (call_improving locals_with_model) 30)
           (trained "acer" false 0) (trained_reachable _ _ _)).
Defined.

(** X5 on twenty-five calls of an acer run whose locals hold the model. *)
Lemma n_steps_counts_calls_witness :
  let s := trained "acer" false 0 in
  let calls := repeat (call_improving locals_with_model) 25 in
  reachable (Hext := example_helpers) s /\
  Forall (holds_model (ALGO (st_globals s))) calls /\
  run_outcomes (Hext := example_helpers) calls s
    = repeat (Returns false) (length calls) /\
  n_steps (st_globals (run_callbacks (Hext := example_helpers) calls s)) =
    n_steps (st_globals s) + Z.of_nat (length calls).
Proof.
  cbv zeta.
  assert (Hm : Forall (holds_model
                         (ALGO (st_globals (trained "acer" false 0))))
                 (repeat (call_improving locals_with_model) 25)).
  { apply List.Forall_forall. intros i Hi. apply repeat_spec in Hi. subst i.
    vm_compute. eexists. split; reflexivity. }
  split; [apply trained_reachable|]. split; [exact Hm|].
  apply (n_steps_counts_calls (Hext := example_helpers)
           (repeat (call_improving locals_with_model) 25)
           (trained "acer" false 0) (trained_reachable _ _ _) Hm).
Defined.

(** X6 for the autoencoder model of the example table. *)
Lemma configure_sets_environment_witness :
  let args := example_args "acer" "autoencoder" false in
  let s' := snd (configureEnvAndLogFolder (Hext := example_helpers) args
                   "04-11-26_10h00_00" imported) in
  srl_model args <> "" /\ srl_model args <> "ground_truth" /\
  example_models !! srl_model args = Some "autoencoder/srl_ae_model.pth" /\
  example_models !! "log_folder" = Some "srl_priors/logs/" /\
  st_kuka_env s' =
    <["SRL_MODEL_PATH" :=
        PyStr ("srl_priors/logs/" +:+ "autoencoder/srl_ae_model.pth")]>
      (<["USE_SRL" := PyBool true]> (st_kuka_env imported)) /\
  PLOT_TITLE (st_globals s') = srl_model args.
Proof.
  assert (H1 : srl_model (example_args "acer" "autoencoder" false) <> "")
    by discriminate.
  assert (H2 : srl_model (example_args "acer" "autoencoder" false)
               <> "ground_truth") by discriminate.
  assert (H3 : example_models
                 !! srl_model (example_args "acer" "autoencoder" false)
               = Some "autoencoder/srl_ae_model.pth")
    by (vm_compute; reflexivity).
  assert (H4 : example_models !! "log_folder" = Some "srl_priors/logs/")
    by (vm_compute; reflexivity).
  split; [exact H1|]. split; [exact H2|]. split; [exact H3|].
  split; [exact H4|].
  destruct (configure_sets_environment (Hext := example_helpers)
              (example_args "acer" "autoencoder" false)
              "04-11-26_10h00_00" imported) as (_ & _ & H & _).
  apply (H _ _ H1 H2 H3 H4).
Defined.

(** X7 for the autoencoder model and a table without ["log_folder"]. *)
Lemma configure_raises_without_log_folder_witness :
  let args := example_args "acer" "autoencoder" false in
  let r := configureEnvAndLogFolder (Hext := helpers_without_folder) args
             "04-11-26_10h00_00" imported in
  srl_model args <> "" /\ srl_model args <> "ground_truth" /\
  is_Some (models_without_folder !! srl_model args) /\
  models_without_folder !! "log_folder" = None /\
  fst r = Raises (KeyError "log_folder") /\
  st_kuka_env (snd r) = <["USE_SRL" := PyBool true]> (st_kuka_env imported) /\
  PLOT_TITLE (st_globals (snd r)) = srl_model args /\
  LOG_DIR (st_globals (snd r)) = LOG_DIR (st_globals imported) /\
  new_events imported (snd r) = [].
Proof.
  assert (H1 : srl_model (example_args "acer" "autoencoder" false) <> "")
    by discriminate.
  assert (H2 : srl_model (example_args "acer" "autoencoder" false)
               <> "ground_truth") by discriminate.
  assert (H3 : is_Some (models_without_folder
                          !! srl_model (example_args "acer" "autoencoder"
                                                     false)))
    by (eexists; vm_compute; reflexivity).
  assert (H4 : models_without_folder !! "log_folder" = None)
    by (vm_compute; reflexivity).
  split; [exact H1|]. split; [exact H2|]. split; [exact H3|].
  split; [exact H4|].
  apply (configure_raises_without_log_folder (Hext := helpers_without_folder)
           (example_args "acer" "autoencoder" false) "04-11-26_10h00_00"
           imported H1 H2 H3 H4).
Defined.

(** X8 for a2c with the supervised model, which the example table lacks. *)
Lemma main_returns_iff_supported_witness :
  let c := example_cmdline "a2c" "supervised" false in
  let r := main (Hext := example_helpers) c imported in
  algo (parse_known_args c) = algo_name a2c /\
  srl_supported (Hext := example_helpers) (parse_args c) = false /\
  (fst r = Returns tt <->
   srl_supported (Hext := example_helpers) (parse_args c) = true) /\
  new_events imported (snd r) =
    [EvPrintGreen (newline +:+ "Agent = " +:+ algo_name a2c +:+ " " +:+ newline);
     EvCustomArguments a2c].
Proof.
  assert (H0 : srl_supported (Hext := example_helpers)
                 (parse_args (example_cmdline "a2c" "supervised" false))
               = false) by (vm_compute; reflexivity).
  destruct (main_returns_iff_supported (Hext := example_helpers)
              (example_cmdline "a2c" "supervised" false) imported a2c
              eq_refl) as [H1 H2].
  split; [reflexivity|]. split; [exact H0|]. split; [exact H1|].
  apply (H2 H0).
Defined.

(** X9 for a command line with [--port 8097]. *)
Lemma visdom_uses_port_flag_witness :
  let c := example_cmdline "deepq" "" false in
  let s := snd (main (Hext := example_helpers) c
                     (mkState initial_globals ∅ [])) in
  algo (parse_known_args c) = algo_name deepq /\
  no_vis (parse_known_args c) = false /\
  List.filter is_visdom
    (new_events s (snd (callback (Hext := example_helpers)
                                 world_improving locals_with_model ∅ s))) =
    [EvVisdom (port (parse_known_args c))].
Proof.
  split; [reflexivity|]. split; [reflexivity|].
  apply (visdom_uses_port_flag (Hext := example_helpers)
           (example_cmdline "deepq" "" false) ∅ deepq
           world_improving locals_with_model ∅ eq_refl eq_refl).
Defined.

(** X10 at the hundredth call of a deepq run, which refreshes the plots. *)
Lemma plot_windows_threaded_witness :
  let s := trained "deepq" false 99 in
  let g := st_globals s in
  let g' := st_globals (snd (callback (Hext := example_helpers)
                                      world_improving locals_with_model ∅ s)) in
  reachable (Hext := example_helpers) s /\
  plots_now world_improving locals_with_model g = true /\
  win g' = visdom_plot world_improving (viz_client g) (win g) (LOG_DIR g)
             (ENV_NAME g) (ALGO g) (Some 1) (Some 0) (PLOT_TITLE g) /\
  win_smooth g' = visdom_plot world_improving (viz_client g) (win_smooth g)
                    (LOG_DIR g) (ENV_NAME g) (ALGO g) None None
                    (PLOT_TITLE g +:+ " smoothed") /\
  win_episodes g' = episode_plot world_improving (viz_client g)
                      (win_episodes g) (LOG_DIR g) (ENV_NAME g) (ALGO g)
                      (EPISODE_WINDOW g) (PLOT_TITLE g +:+ " [Episodes]").
Proof.
  assert (H0 : plots_now world_improving locals_with_model
                 (st_globals (trained "deepq" false 99)) = true)
    by (vm_compute; reflexivity).
  split; [apply trained_reachable|]. split; [exact H0|].
  destruct (plot_windows_threaded (Hext := example_helpers)
              world_improving locals_with_model ∅ (trained "deepq" false 99)
              (trained_reachable _ _ _)) as [H _].
  apply (H H0).
Defined.

(** X11 for the checkpoint of the twentieth call of an acer run. *)
Lemma callback_writes_under_log_dir_witness :
  let s := trained "acer" false 19 in
  let g := st_globals s in
  let p := "/tmp/gym/raw_pixels/acer/04-11-26_10h00_00/acer_model.pkl" in
  let e := EvSave (PyObj 1) p in
  reachable (Hext := example_helpers) s /\
  In e (new_events s (snd (callback (Hext := example_helpers)
                                    world_improving locals_with_model ∅ s))) /\
  writes_file p e = true /\
  (p = LOG_DIR g +:+ "rl_locals.json" \/
   p = LOG_DIR g +:+ ALGO g +:+ "_model.pkl").
Proof.
  cbv zeta.
  assert (H1 : In (EvSave (PyObj 1)
                     "/tmp/gym/raw_pixels/acer/04-11-26_10h00_00/acer_model.pkl")
                  (new_events (trained "acer" false 19)
                     (snd (callback (Hext := example_helpers) world_improving
                             locals_with_model ∅ (trained "acer" false 19))))).
  { vm_compute. repeat first [left; reflexivity | right]. }
  assert (H2 : writes_file
                 "/tmp/gym/raw_pixels/acer/04-11-26_10h00_00/acer_model.pkl"
                 (EvSave (PyObj 1)
                    "/tmp/gym/raw_pixels/acer/04-11-26_10h00_00/acer_model.pkl")
               = true) by (vm_compute; reflexivity).
  split; [apply trained_reachable|]. split; [exact H1|]. split; [exact H2|].
  apply (callback_writes_under_log_dir (Hext := example_helpers)
           world_improving locals_with_model ∅ (trained "acer" false 19)
           _ _ (trained_reachable _ _ _) H1 H2).
Defined.

(** X12 at the twentieth call of an acer run whose log gives NaN. *)
Lemma nan_reward_is_ignored_witness :
  let s := trained "acer" false 19 in
  let g := st_globals s in
  let r := callback (Hext := example_helpers)
                    world_nan locals_with_model ∅ s in
  reachable (Hext := example_helpers) s /\
  save_step g = true /\
  computeMeanReward world_nan (LOG_DIR g) (N_EPISODES_EVAL g)
    = (true, S754_nan) /\
  List.filter is_save (new_events s (snd r)) = [] /\
  best_mean_reward (st_globals (snd r)) = best_mean_reward g /\
  fst r = Returns false.
Proof.
  split; [apply trained_reachable|].
  split; [vm_compute; reflexivity|]. split; [reflexivity|].
  apply (nan_reward_is_ignored (Hext := example_helpers)
           world_nan locals_with_model ∅ (trained "acer" false 19)
           (trained_reachable _ _ _)).
  - vm_compute; reflexivity.
  - reflexivity.
Defined.

(** X13 at the twentieth call of an acer run with a mean reward of [1.0]. *)
Lemma best_bounds_last_evaluation_witness :
  let s := trained "acer" false 19 in
  let g := st_globals s in
  reachable (Hext := example_helpers) s /\
  save_step g = true /\
  is_number (last_mean_reward world_improving g) = true /\
  py_ge (best_mean_reward
           (st_globals (snd (callback (Hext := example_helpers)
                                      world_improving locals_with_model ∅ s))))
        (last_mean_reward world_improving g) = true.
Proof.
  split; [apply trained_reachable|].
  split; [vm_compute; reflexivity|]. split; [vm_compute; reflexivity|].
  apply (best_bounds_last_evaluation (Hext := example_helpers)
           world_improving locals_with_model ∅ (trained "acer" false 19)
           (trained_reachable _ _ _)).
  - vm_compute; reflexivity.
  - vm_compute; reflexivity.
Defined.

(** X14 on a command line for ppo2 with the ground truth. *)
Lemma main_configures_kuka_env_witness :
  let c := example_cmdline "ppo2" "ground_truth" false in
  let s' := snd (main (Hext := example_helpers) c imported) in
  algo (parse_known_args c) = algo_name ppo2 /\
  srl_supported (Hext := example_helpers) (parse_args c) = true /\
  st_kuka_env s' !! "ACTION_REPEAT"
    = Some (PyInt (action_repeat (parse_known_args c))) /\
  st_kuka_env s' !! "URDF_ROOT" = st_kuka_env imported !! "URDF_ROOT".
Proof.
  assert (H0 : srl_supported (Hext := example_helpers)
                 (parse_args (example_cmdline "ppo2" "ground_truth" false))
               = true) by (vm_compute; reflexivity).
  destruct (main_configures_kuka_env (Hext := example_helpers)
              (example_cmdline "ppo2" "ground_truth" false) imported ppo2
              eq_refl H0) as (H1 & H2 & _).
  split; [reflexivity|]. split; [exact H0|]. split; [exact H1|].
  apply H2; discriminate.
Defined.

(** X15 at the twentieth call of an acer run whose locals hold the model
    under ['model'] only: 20 divides 20 and 1 divides 20, so the log is
    read and the plots are refreshed. *)
Lemma callback_cadence_witness :
  let c := example_cmdline "acer" "" false in
  let i := call_improving (<["model" := PyObj 1]> ∅) in
  let calls := repeat i 19 in
  let s0 := snd (main (Hext := example_helpers) c
                      (mkState initial_globals ∅ [])) in
  let s := run_callbacks (Hext := example_helpers) calls s0 in
  let evs := new_events s (invoke (Hext := example_helpers) i s) in
  Forall (holds_model (algo (parse_known_args c))) calls /\
  holds_model (algo (parse_known_args c)) i /\
  (SAVE_INTERVAL (st_globals s0) | Z.of_nat (length calls) + 1) /\
  List.filter is_reward_read evs <> [] /\
  (List.filter is_plot evs <> [] <->
   no_vis (parse_known_args c) = false /\
   (LOG_INTERVAL (st_globals s0) | Z.of_nat (length calls) + 1)).
Proof.
  cbv zeta.
  assert (Hi : holds_model
                 (algo (parse_known_args (example_cmdline "acer" "" false)))
                 (call_improving (<["model" := PyObj 1]> ∅))).
  { vm_compute. eexists. split; reflexivity. }
  assert (Hm : Forall (holds_model
                         (algo (parse_known_args
                                  (example_cmdline "acer" "" false))))
                 (repeat (call_improving (<["model" := PyObj 1]> ∅)) 19)).
  { apply List.Forall_forall. intros i Hin. apply repeat_spec in Hin.
    by subst i. }
  assert (Hd : (SAVE_INTERVAL
                  (st_globals
                     (snd (main (Hext := example_helpers)
                             (example_cmdline "acer" "" false)
                             (mkState initial_globals ∅ []))))
                | Z.of_nat
                    (length (repeat (call_improving
                                       (<["model" := PyObj 1]> ∅)) 19)) + 1)).
  { exists 1. vm_compute. reflexivity. }
  destruct (callback_cadence (Hext := example_helpers)
              (example_cmdline "acer" "" false) ∅
              (repeat (call_improving (<["model" := PyObj 1]> ∅)) 19)
              (call_improving (<["model" := PyObj 1]> ∅)) Hm Hi) as [H1 H2].
  split; [exact Hm|]. split; [exact Hi|]. split; [exact Hd|].
  split; [by apply H1 | exact H2].
Defined.
